(** * Monaco 2018 Q1 report: the log parser and the ranking engine

    A shallow embedding of [reporting_gen.py] (classes [DriverLapInfo],
    [Q1Processor], [Q1ReportGenerator]) and of the [report] route of
    [app.py], followed by the properties of the specification that were
    checked against it.

    Conventions of the embedding.
    - A Python [str] is a Rocq [string]; its characters are the code points
      below 256.  On that range [\d] is [0-9] and [str.isspace] is the
      set written out in [isspace].
    - A computation that may raise is a value of [result]: [Ok v] or
      [Raise e].  The handlers [except IOError] only print a message and
      fall through; what is printed is not modelled.
    - A naive [datetime] is its number of microseconds since
      0001-01-01T00:00:00, a [timedelta] a number of microseconds: on these
      counts [<] and [-] are those of CPython.
    - A [dict] is an association list in insertion order without repeated
      keys, as CPython iterates it.
    - A text file is the list of the lines its iteration yields, or [None]
      when [open] raises [IOError]. *)

From Stdlib Require Import List String Ascii ZArith Lia Bool Permutation Sorted.
From Stdlib Require Import DecimalString.
Import ListNotations.

Local Open Scope string_scope.
Local Open Scope Z_scope.

(** ** Exceptions *)

Inductive exn : Type :=
| AttributeError
| ValueError.

Inductive result (A : Type) : Type :=
| Ok (a : A)
| Raise (e : exn).

Arguments Ok {A} a.
Arguments Raise {A} e.

Definition bind {A B : Type} (m : result A) (k : A -> result B) : result B :=
  match m with
  | Ok a => k a
  | Raise e => Raise e
  end.

Notation "x <- m ;; k" := (bind m (fun x => k))
  (at level 61, m at next level, right associativity).

(** [for x in l: acc = body(acc, x)], stopping at the first exception. *)
Fixpoint for_each {A S : Type} (body : S -> A -> result S) (l : list A) (s : S)
  : result S :=
  match l with
  | [] => Ok s
  | x :: l' => s' <- body s x ;; for_each body l' s'
  end.

(** The list [[f x for x in l]], stopping at the first exception. *)
Fixpoint map_result {A B : Type} (f : A -> result B) (l : list A)
  : result (list B) :=
  match l with
  | [] => Ok []
  | x :: l' => y <- f x ;; ys <- map_result f l' ;; Ok (y :: ys)
  end.

(** ** Strings: [str.strip], [str.split] and the character classes *)

Definition code_point (c : ascii) : Z := Z.of_nat (nat_of_ascii c).

Definition in_range (lo hi : Z) (c : ascii) : bool :=
  (lo <=? code_point c) && (code_point c <=? hi).

Definition isspace (c : ascii) : bool :=
  in_range 9 13 c || in_range 28 32 c
  || (code_point c =? 133) || (code_point c =? 160).

Definition is_upper : ascii -> bool := in_range 65 90.   (* [A-Z] *)
Definition is_digit : ascii -> bool := in_range 48 57.   (* \d *)

Fixpoint lstrip (s : string) : string :=
  match s with
  | EmptyString => EmptyString
  | String c s' => if isspace c then lstrip s' else s
  end.

Fixpoint rstrip (s : string) : string :=
  match s with
  | EmptyString => EmptyString
  | String c s' =>
      match rstrip s' with
      | EmptyString => if isspace c then EmptyString else String c EmptyString
      | r => String c r
      end
  end.

Definition strip (s : string) : string := rstrip (lstrip s).

(** [s.split(sep)] for a one-character separator: never the empty list. *)
Fixpoint split (sep : ascii) (s : string) : list string :=
  match s with
  | EmptyString => [EmptyString]
  | String c s' =>
      if Ascii.eqb c sep then EmptyString :: split sep s'
      else match split sep s' with
           | f :: fs => String c f :: fs
           | [] => [String c EmptyString]
           end
  end.

(** ** The pattern of [read_log_file]

    [re.match] anchors the pattern at the start of the string only; the
    pattern has neither alternation nor repetition of variable length, so
    matching is one left-to-right pass over a list of character classes. *)

Definition lit (a : ascii) : ascii -> bool := Ascii.eqb a.

(** [([A-Z]{3})] *)
Definition code_classes : list (ascii -> bool) :=
  [is_upper; is_upper; is_upper].

(** [(\d{4}-\d{2}-\d{2}_\d{2}:\d{2}:\d{2}\.\d{3})] *)
Definition timestamp_classes : list (ascii -> bool) :=
  [is_digit; is_digit; is_digit; is_digit; lit "-";
   is_digit; is_digit; lit "-";
   is_digit; is_digit; lit "_";
   is_digit; is_digit; lit ":";
   is_digit; is_digit; lit ":";
   is_digit; is_digit; lit ".";
   is_digit; is_digit; is_digit].

(** The text matched by a sequence of classes and what follows it. *)
Fixpoint match_classes (cs : list (ascii -> bool)) (s : string)
  : option (string * string) :=
  match cs with
  | [] => Some (EmptyString, s)
  | p :: cs' =>
      match s with
      | EmptyString => None
      | String c s' =>
          if p c then
            match match_classes cs' s' with
            | Some (m, rest) => Some (String c m, rest)
            | None => None
            end
          else None
      end
  end.

(** [re.match(pattern, s)] followed by [match.groups()]. *)
Definition re_match (s : string) : option (string * string) :=
  match match_classes code_classes s with
  | Some (driver_init, rest) =>
      match match_classes timestamp_classes rest with
      | Some (timestamp_str, _) => Some (driver_init, timestamp_str)
      | None => None
      end
  | None => None
  end.

(** ** [datetime] and [timedelta] *)

Definition datetime : Type := Z.
Definition timedelta : Type := Z.

Definition digit_value (c : ascii) : Z := code_point c - 48.

Fixpoint int_of_digits (acc : Z) (s : string) : Z :=
  match s with
  | EmptyString => acc
  | String c s' => int_of_digits (10 * acc + digit_value c) s'
  end.

(** The number written by the [len] digits of [s] from [start]. *)
Definition int_field (start len : nat) (s : string) : Z :=
  int_of_digits 0 (substring start len s).

Definition is_leap (y : Z) : bool :=
  (y mod 4 =? 0) && (negb (y mod 100 =? 0) || (y mod 400 =? 0)).

Definition days_in_month (y m : Z) : Z :=
  if m =? 2 then (if is_leap y then 29 else 28)
  else if (m =? 4) || (m =? 6) || (m =? 9) || (m =? 11) then 30
  else 31.

Definition days_before_year (y : Z) : Z :=
  let p := y - 1 in p * 365 + p / 4 - p / 100 + p / 400.

Fixpoint days_before_month_aux (y : Z) (m : nat) : Z :=
  match m with
  | O => 0
  | S m' => days_before_month_aux y m' + days_in_month y (Z.of_nat m)
  end.

Definition days_before_month (y m : Z) : Z :=
  days_before_month_aux y (Z.to_nat (m - 1)).

Definition ymd2ord (y m d : Z) : Z :=
  days_before_year y + days_before_month y m + d.

(** [datetime.strptime(s, '%Y-%m-%d_%H:%M:%S.%f')] on a string that the
    timestamp group of the pattern matched (its only call site): the directives
    and the [datetime] constructor accept the fields exactly when they are in
    range, and raise [ValueError] otherwise. *)
Definition strptime (s : string) : result datetime :=
  let year := int_field 0 4 s in
  let month := int_field 5 2 s in
  let day := int_field 8 2 s in
  let hour := int_field 11 2 s in
  let minute := int_field 14 2 s in
  let second := int_field 17 2 s in
  let microsecond := int_field 20 3 s * 1000 in
  if (1 <=? year) && (1 <=? month) && (month <=? 12)
     && (1 <=? day) && (day <=? days_in_month year month)
     && (hour <=? 23) && (minute <=? 59) && (second <=? 59)
  then Ok ((((ymd2ord year month day * 24 + hour) * 60 + minute) * 60 + second)
           * 1000000 + microsecond)
  else Raise ValueError.

Definition decimal (n : Z) : string := NilZero.string_of_int (Z.to_int n).

Fixpoint zeros (n : nat) : string :=
  match n with
  | O => EmptyString
  | S n' => String "0" (zeros n')
  end.

(** The digits [s] of a number on at least [w] places ([%02d], [%06d]), for
    a number that is not negative. *)
Definition zero_pad (w : nat) (s : string) : string :=
  zeros (w - String.length s) ++ s.

(** [timedelta.__str__]. *)
Definition timedelta_str (t : timedelta) : string :=
  let days := t / 86400000000 in
  let seconds := (t mod 86400000000) / 1000000 in
  let microseconds := t mod 1000000 in
  let mm := seconds / 60 in
  let ss := seconds mod 60 in
  let hh := mm / 60 in
  let mm := mm mod 60 in
  let s := decimal hh ++ ":" ++ zero_pad 2 (decimal mm)
           ++ ":" ++ zero_pad 2 (decimal ss) in
  let s := if days =? 0 then s
           else decimal days ++ " day"
                ++ (if Z.abs days =? 1 then "" else "s") ++ ", " ++ s in
  if microseconds =? 0 then s
  else s ++ "." ++ zero_pad 6 (decimal microseconds).

(** ** [dict]: insertion-ordered, keyed by strings *)

Definition dict (V : Type) : Type := list (string * V).

Fixpoint dict_get {V : Type} (k : string) (d : dict V) : option V :=
  match d with
  | [] => None
  | (k', v) :: d' => if String.eqb k k' then Some v else dict_get k d'
  end.

(** [k in d] *)
Definition dict_mem {V : Type} (k : string) (d : dict V) : bool :=
  match dict_get k d with
  | Some _ => true
  | None => false
  end.

(** [d[k] = v]: a key already present keeps its place, a new one goes last. *)
Fixpoint dict_set {V : Type} (k : string) (v : V) (d : dict V) : dict V :=
  match d with
  | [] => [(k, v)]
  | (k', v') :: d' =>
      if String.eqb k k' then (k', v) :: d' else (k', v') :: dict_set k v d'
  end.

Definition dict_keys {V : Type} (d : dict V) : list string := map fst d.
Definition dict_values {V : Type} (d : dict V) : list V := map snd d.

(** ** [list.sort(key=..., reverse=...)]

    CPython computes every key first, reverses the list when [reverse] is
    set, sorts stably with [<] on the keys alone, and reverses again.  A
    stable sort has one possible result, so insertion sort stands for
    timsort here. *)

Section ListSort.
Context {K A : Type} (lt : K -> K -> bool).

(** [x] may stand before [y] in a list sorted by [lt] on the keys. *)
Definition not_after (x y : K * A) : Prop := lt (fst y) (fst x) = false.

Fixpoint insert (x : K * A) (l : list (K * A)) : list (K * A) :=
  match l with
  | [] => [x]
  | y :: l' => if lt (fst y) (fst x) then y :: insert x l' else x :: l
  end.

Fixpoint stable_sort (l : list (K * A)) : list (K * A) :=
  match l with
  | [] => []
  | x :: l' => insert x (stable_sort l')
  end.

Definition list_sort (key : A -> result K) (reverse : bool) (l : list A)
  : result (list A) :=
  keyed <- map_result (fun x => k <- key x ;; Ok (k, x)) l ;;
  Ok (map snd (if reverse then rev (stable_sort (rev keyed))
               else stable_sort keyed)).
End ListSort.

(** ** [DriverLapInfo] *)

(** [end_time] is declared [field(init=False)] without a default: the
    attribute does not exist until it is assigned, which is [None] here. *)
Record DriverLapInfo : Type := {
  driver_init : string;
  start_time : datetime;
  end_time : option datetime;
  driver_name : string;
  team : string
}.

(** [DriverLapInfo(driver_init, start_time)] *)
Definition new_DriverLapInfo (code : string) (start : datetime) : DriverLapInfo :=
  {| driver_init := code; start_time := start; end_time := None;
     driver_name := ""; team := "" |}.

Definition set_end_time (t : datetime) (d : DriverLapInfo) : DriverLapInfo :=
  {| driver_init := driver_init d; start_time := start_time d;
     end_time := Some t; driver_name := driver_name d; team := team d |}.

Definition set_name_team (n t : string) (d : DriverLapInfo) : DriverLapInfo :=
  {| driver_init := driver_init d; start_time := start_time d;
     end_time := end_time d; driver_name := n; team := t |}.

(** The property [driver_lap_time]: reading [self.end_time] raises
    [AttributeError] when the attribute was never assigned. *)
Definition driver_lap_time (self : DriverLapInfo) : result (option timedelta) :=
  match end_time self with
  | None => Raise AttributeError
  | Some e =>
      if e <? start_time self then Ok None
      else Ok (Some (e - start_time self))
  end.

(** ** [Q1Processor] *)

(** A text file: the lines its iteration yields, [None] when [open] raises
    [IOError]. *)
Definition file : Type := option (list string).

(** The folder handed to [Q1Processor]: [start.log], [end.log] and
    [abbreviations.txt]. *)
Record Folder : Type := {
  start_log : file;
  end_log : file;
  abbreviations : file
}.

(** The body of the loop of [read_log_file]. *)
Definition read_log_line (data : dict datetime) (line : string)
  : result (dict datetime) :=
  match re_match (strip line) with
  | Some (code, timestamp_str) =>
      timestamp <- strptime timestamp_str ;;
      Ok (dict_set code timestamp data)
  | None => Ok data
  end.

Definition read_log_file (f : file) : result (dict datetime) :=
  match f with
  | None => Ok []
  | Some lines => for_each read_log_line lines []
  end.

(** The body of the loop of [integrate_driver_info]: unpacking anything but
    three fields raises [ValueError]. *)
Definition integrate_line (drivers : dict DriverLapInfo) (line : string)
  : result (dict DriverLapInfo) :=
  match split "_" (strip line) with
  | [code; name; tm] =>
      match dict_get code drivers with
      | Some d => Ok (dict_set code (set_name_team name tm d) drivers)
      | None => Ok drivers
      end
  | _ => Raise ValueError
  end.

Definition integrate_driver_info (txt : file) (drivers : dict DriverLapInfo)
  : result (dict DriverLapInfo) :=
  match txt with
  | None => Ok drivers
  | Some lines => for_each integrate_line lines drivers
  end.

(** The loop of [process_files] over [start_times.items()]. *)
Definition add_driver (end_times : dict datetime)
    (drivers : dict DriverLapInfo) (item : string * datetime)
  : dict DriverLapInfo :=
  let '(code, start) := item in
  let driver_info := new_DriverLapInfo code start in
  let driver_info :=
    match dict_get code end_times with
    | Some e => set_end_time e driver_info
    | None => driver_info
    end in
  dict_set code driver_info drivers.

Definition process_files (dir : Folder) (drivers : dict DriverLapInfo)
  : result (dict DriverLapInfo) :=
  start_times <- read_log_file (start_log dir) ;;
  end_times <- read_log_file (end_log dir) ;;
  integrate_driver_info (abbreviations dir)
    (fold_left (add_driver end_times) start_times drivers).

(** [Q1Processor(folder)] leaves [self.drivers = {}];
    [Q1ReportGenerator(processor)] runs [process_files] on it. *)
Definition load (dir : Folder) : result (dict DriverLapInfo) :=
  process_files dir [].

(** ** [Q1ReportGenerator] *)

(** The sort key [(x.driver_lap_time is None, x.driver_lap_time)]. *)
Definition sort_key : Type := bool * option timedelta.

Definition rank_key (x : DriverLapInfo) : result sort_key :=
  flag <- driver_lap_time x ;;
  lap <- driver_lap_time x ;;
  Ok (match flag with None => true | Some _ => false end, lap).

(** [<] on two such tuples: the first components decide when they differ
    ([False < True]); when they agree the second components are compared,
    two [None] being equal.  A [None] never meets a [timedelta] there, since
    the first component tells them apart. *)
Definition key_lt (a b : sort_key) : bool :=
  if Bool.eqb (fst a) (fst b) then
    match snd a, snd b with
    | Some x, Some y => x <? y
    | _, _ => false
    end
  else negb (fst a) && fst b.

Definition rank_drivers (order : string) (drivers : dict DriverLapInfo)
  : result (list DriverLapInfo) :=
  list_sort key_lt rank_key (String.eqb order "desc") (dict_values drivers).

(** [enumerate(l, start)] *)
Fixpoint enumerate {A : Type} (start : Z) (l : list A) : list (Z * A) :=
  match l with
  | [] => []
  | x :: l' => (start, x) :: enumerate (start + 1) l'
  end.

(** Truth value of an [Optional[timedelta]]: [None] and [timedelta(0)] are
    false. *)
Definition truthy (v : option timedelta) : bool :=
  match v with
  | None => false
  | Some t => negb (t =? 0)
  end.

(** [str] of an [Optional[timedelta]]. *)
Definition py_str (v : option timedelta) : string :=
  match v with
  | None => "None"
  | Some t => timedelta_str t
  end.

(** [str(driver.driver_lap_time) if driver.driver_lap_time else "NO TIME"] *)
Definition lap_time_or_sentinel (driver : DriverLapInfo) : result string :=
  cond <- driver_lap_time driver ;;
  if truthy cond then v <- driver_lap_time driver ;; Ok (py_str v)
  else Ok "NO TIME".

Module ReportRow.
(** An entry of [get_report_data]. *)
Record t : Type := {
  position : Z;
  name : string;
  team : string;
  lap_time : string;
  eliminated : bool
}.
End ReportRow.

Module Info.
(** The result of [get_driver_info]. *)
Record t : Type := {
  name : string;
  team : string;
  lap_time : string
}.
End Info.

(** [(i > 15) if order == 'asc' else (i <= len(ranked_drivers) - 15)] *)
Definition eliminated_at (order : string) (total i : Z) : bool :=
  if String.eqb order "asc" then 15 <? i else i <=? total - 15.

Definition driver_data (order : string) (total : Z) (entry : Z * DriverLapInfo)
  : result ReportRow.t :=
  let '(i, driver) := entry in
  lap <- lap_time_or_sentinel driver ;;
  Ok {| ReportRow.position := i;
        ReportRow.name := driver_name driver;
        ReportRow.team := team driver;
        ReportRow.lap_time := lap;
        ReportRow.eliminated := eliminated_at order total i |}.

Definition get_report_data (order : string) (drivers : dict DriverLapInfo)
  : result (list ReportRow.t) :=
  ranked_drivers <- rank_drivers order drivers ;;
  map_result (driver_data order (Z.of_nat (List.length ranked_drivers)))
    (enumerate 1 ranked_drivers).

Definition get_driver_info (code : string) (drivers : dict DriverLapInfo)
  : result (option Info.t) :=
  match dict_get code drivers with
  | Some driver =>
      lap <- lap_time_or_sentinel driver ;;
      Ok (Some {| Info.name := driver_name driver;
                  Info.team := team driver;
                  Info.lap_time := lap |})
  | None => Ok None
  end.

(** ** The [report] route of [app.py]

    [request.args.get('order', 'asc')] then [get_report_data(order)]: the
    query parameter is handed on as it came. *)
Definition report (order_arg : option string) (drivers : dict DriverLapInfo)
  : result (list ReportRow.t) :=
  let order := match order_arg with Some o => o | None => "asc" end in
  get_report_data order drivers.

(** ** Reading the report *)

(** The ranked records whose entry has [eliminated = False], in the order of
    the report. *)
Definition advancing (order : string) (drivers : dict DriverLapInfo)
  : result (list DriverLapInfo) :=
  ranked <- rank_drivers order drivers ;;
  rows <- get_report_data order drivers ;;
  Ok (map fst (filter (fun p => negb (ReportRow.eliminated (snd p)))
                 (combine ranked rows))).

(** A record's duration is defined, resp. is the anomaly of an end before
    the start. *)
Definition defined_duration (d : DriverLapInfo) : bool :=
  match driver_lap_time d with Ok (Some _) => true | _ => false end.

Definition undefined_duration (d : DriverLapInfo) : bool :=
  match driver_lap_time d with Ok None => true | _ => false end.

(** ** Vocabulary of the statements *)

(** What a log line contributes: its code and timestamp when the pattern
    matches and the timestamp is a date, nothing otherwise. *)
Definition parse_line (line : string) : option (string * datetime) :=
  match re_match (strip line) with
  | Some (code, timestamp_str) =>
      match strptime timestamp_str with
      | Ok t => Some (code, t)
      | Raise _ => None
      end
  | None => None
  end.

(** The timestamp of the last well-formed line that carries [code]. *)
Fixpoint last_stamp (code : string) (lines : list string) : option datetime :=
  match lines with
  | [] => None
  | line :: rest =>
      match last_stamp code rest with
      | Some t => Some t
      | None =>
          match parse_line line with
          | Some (c, t) => if String.eqb code c then Some t else None
          | None => None
          end
      end
  end.

(** Lines on which the loops do not raise: a log line whose timestamp, when
    the pattern matches, is a date; a metadata line of three fields. *)
Definition clean_log_line (line : string) : bool :=
  match re_match (strip line) with
  | Some (_, timestamp_str) =>
      match strptime timestamp_str with Ok _ => true | Raise _ => false end
  | None => true
  end.

Definition clean_txt_line (line : string) : bool :=
  (List.length (split "_" (strip line)) =? 3)%nat.

Definition clean (line_ok : string -> bool) (f : file) : bool :=
  match f with
  | None => true
  | Some lines => forallb line_ok lines
  end.

Definition readable_clean (dir : Folder) : bool :=
  clean clean_log_line (start_log dir)
  && clean clean_log_line (end_log dir)
  && clean clean_txt_line (abbreviations dir).




(** The record [process_files] builds for one item of [start_times]. *)
Definition built (end_times : dict datetime) (item : string * datetime)
  : DriverLapInfo :=
  {| driver_init := fst item; start_time := snd item;
     end_time := dict_get (fst item) end_times;
     driver_name := ""; team := "" |}.

(** What the metadata pass keeps of every record, whatever the lines. *)
Definition timing (kv : string * DriverLapInfo)
  : string * (string * datetime * option datetime) :=
  (fst kv, (driver_init (snd kv), start_time (snd kv), end_time (snd kv))).

(** The keys the sort meets: the flag says whether the lap time is [None]. *)
Definition valid_key (k : sort_key) : Prop :=
  k = (true, None) \/ exists t, k = (false, Some t).

(** [x] is not after [y] in ascending order of the keys. *)
Definition key_le {A : Type} : sort_key * A -> sort_key * A -> Prop :=
  not_after key_lt.

Definition has_end_time (d : DriverLapInfo) : bool :=
  match end_time d with Some _ => true | None => false end.

(** Every record of the mapping was given an end time. *)
Definition all_timed (drivers : dict DriverLapInfo) : bool :=
  forallb has_end_time (dict_values drivers).

(** [a] is not slower than [b]: a duration is below every larger one, and
    every duration is below the anomaly. *)
Definition lap_le (a b : DriverLapInfo) : Prop :=
  match driver_lap_time a, driver_lap_time b with
  | Ok (Some x), Ok (Some y) => x <= y
  | Ok _, Ok None => True
  | _, _ => False
  end.

(** The lap time of [d] is [v]. *)
Definition lap_is (v : option timedelta) (d : DriverLapInfo) : bool :=
  match driver_lap_time d, v with
  | Ok (Some x), Some y => x =? y
  | Ok None, None => true
  | _, _ => false
  end.

(** The sort key is the key of the lap time [v]. *)
Definition key_lap_is (v : option timedelta) (k : sort_key) : bool :=
  match k, v with
  | (false, Some x), Some y => x =? y
  | (true, None), None => true
  | _, _ => false
  end.

(** ** Sample folders *)

(** A line as the iteration of a file yields it, with its line feed. *)
Definition ln (s : string) : string := s ++ String (ascii_of_nat 10) EmptyString.

Definition sample_start : list string :=
  [ln "SVF2018-05-24_12:02:58.917"; ln "DRR2018-05-24_12:14:12.054";
   ln "NHR2018-05-24_12:02:49.914"].

Definition sample_end : list string :=
  [ln "SVF2018-05-24_12:04:03.332"; ln "DRR2018-05-24_12:11:24.067";
   ln "NHR2018-05-24_12:04:02.979"].

Definition sample_txt : list string :=
  [ln "DRR_Daniel Ricciardo_RED BULL RACING TAG HEUER";
   ln "SVF_Sebastian Vettel_FERRARI";
   ln "NHR_Nico Hulkenberg_RENAULT"].

Definition sample_folder : Folder :=
  {| start_log := Some sample_start; end_log := Some sample_end;
     abbreviations := Some sample_txt |}.

(** The same folder without [end.log]. *)
Definition folder_without_end : Folder :=
  {| start_log := Some sample_start; end_log := None;
     abbreviations := Some sample_txt |}.


(** A start log in which [SVF] has two well-formed lines and one line is
    no log line. *)
Definition start_with_repeat : list string :=
  [ln "SVF2018-05-24_12:02:58.917"; ln "XYZ_not_a_timestamp";
   ln "NHR2018-05-24_12:02:49.914"; ln "SVF2018-05-24_12:03:00.000"].

(** A metadata file whose second line has two fields. *)
Definition txt_short_line : list string :=
  [ln "SVF_Sebastian Vettel_FERRARI"; ln "DRR_Daniel Ricciardo";
   ln "NHR_Nico Hulkenberg_RENAULT"].

Definition folder_short_line : Folder :=
  {| start_log := Some sample_start; end_log := Some sample_end;
     abbreviations := Some txt_short_line |}.

(** The mappings that the load step builds from these folders. *)
Definition sample_drivers : dict DriverLapInfo :=
  [("SVF", {| driver_init := "SVF"; start_time := 63662846578917000;
              end_time := Some 63662846643332000;
              driver_name := "Sebastian Vettel"; team := "FERRARI" |});
   ("DRR", {| driver_init := "DRR"; start_time := 63662847252054000;
              end_time := Some 63662847084067000;
              driver_name := "Daniel Ricciardo";
              team := "RED BULL RACING TAG HEUER" |});
   ("NHR", {| driver_init := "NHR"; start_time := 63662846569914000;
              end_time := Some 63662846642979000;
              driver_name := "Nico Hulkenberg"; team := "RENAULT" |})].

Definition drivers_without_end : dict DriverLapInfo :=
  [("SVF", {| driver_init := "SVF"; start_time := 63662846578917000;
              end_time := None;
              driver_name := "Sebastian Vettel"; team := "FERRARI" |});
   ("DRR", {| driver_init := "DRR"; start_time := 63662847252054000;
              end_time := None;
              driver_name := "Daniel Ricciardo";
              team := "RED BULL RACING TAG HEUER" |});
   ("NHR", {| driver_init := "NHR"; start_time := 63662846569914000;
              end_time := None;
              driver_name := "Nico Hulkenberg"; team := "RENAULT" |})].

(** Sixteen drivers that all start at 12:10:00. *)
Definition codes16 : list string :=
  ["DRR"; "SVF"; "LHM"; "KRF"; "VBM"; "EOF"; "FAM"; "CSR";
   "SPF"; "PGS"; "NHR"; "SVM"; "SSW"; "CLS"; "RGH"; "BHS"].

Definition seconds16 : list string :=
  ["10"; "11"; "12"; "13"; "14"; "15"; "16"; "17";
   "18"; "19"; "20"; "21"; "22"; "23"; "24"; "25"].

Definition start_line (code : string) : string :=
  ln (code ++ "2018-05-24_12:10:00.000").

(** An end at 12:11 and [sec] seconds. *)
Definition end_line (code_sec : string * string) : string :=
  ln (fst code_sec ++ "2018-05-24_12:11:" ++ snd code_sec ++ ".000").

(** An end at 12:09:00, before the start. *)
Definition early_end_line (code : string) : string :=
  ln (code ++ "2018-05-24_12:09:00.000").

(** Sixteen laps of sixteen different durations. *)
Definition folder_sixteen : Folder :=
  {| start_log := Some (map start_line codes16);
     end_log := Some (map end_line (combine codes16 seconds16));
     abbreviations := None |}.

(** Fourteen laps of different durations, and two anomalies ([RGH], [BHS]). *)
Definition folder_two_anomalies : Folder :=
  {| start_log := Some (map start_line codes16);
     end_log := Some (map end_line (firstn 14 (combine codes16 seconds16))
                      ++ map early_end_line (skipn 14 codes16))%list;
     abbreviations := None |}.

(** Fifteen laps of different durations, and one anomaly ([BHS]). *)
Definition folder_one_anomaly : Folder :=
  {| start_log := Some (map start_line codes16);
     end_log := Some (map end_line (firstn 15 (combine codes16 seconds16))
                      ++ map early_end_line (skipn 15 codes16))%list;
     abbreviations := None |}.

Definition drivers_one_anomaly : dict DriverLapInfo :=
  Eval vm_compute in
    match load folder_one_anomaly with Ok d => d | Raise _ => [] end.

Definition drivers_sixteen : dict DriverLapInfo :=
  Eval vm_compute in
    match load folder_sixteen with Ok d => d | Raise _ => [] end.

Definition drivers_two_anomalies : dict DriverLapInfo :=
  Eval vm_compute in
    match load folder_two_anomalies with Ok d => d | Raise _ => [] end.

(** Three laps, the first and the last of the same duration. *)
Definition folder_tie : Folder :=
  {| start_log := Some (map start_line ["SVF"; "DRR"; "NHR"]);
     end_log := Some (map end_line [("SVF", "12"); ("DRR", "10"); ("NHR", "12")]);
     abbreviations := None |}.

Definition drivers_tie : dict DriverLapInfo :=
  Eval vm_compute in
    match load folder_tie with Ok d => d | Raise _ => [] end.

(** A folder in which the end log gives [SVF] the very time of its start. *)
Definition zero_lap_folder : Folder :=
  {| start_log := Some [ln "SVF2018-05-24_12:02:58.917"];
     end_log := Some [ln "SVF2018-05-24_12:02:58.917"];
     abbreviations := Some [ln "SVF_Sebastian Vettel_FERRARI"] |}.

(** * The other functions of [reporting_gen.py] and [app.py] *)

(** ** Text output

    What a call prints is the list of the arguments of its [print] calls,
    in order; a call that raises keeps what it printed before. *)

Fixpoint repeat_char (c : ascii) (n : nat) : string :=
  match n with
  | O => EmptyString
  | S n' => String c (repeat_char c n')
  end.

(** The format [{s:<w}]: [s] followed by spaces up to [w] places, never
    cut. *)
Definition ljust (w : nat) (s : string) : string :=
  s ++ repeat_char " " (w - String.length s).

(** ["-" * 36 + 'ELIMINATED' + "-" * 36] *)
Definition eliminated_rule : string :=
  repeat_char "-" 36 ++ "ELIMINATED" ++ repeat_char "-" 36.

(** ["Formula 1 - Qualifying Q1 Results\n"] *)
Definition report_title : string :=
  "Formula 1 - Qualifying Q1 Results" ++ String (ascii_of_nat 10) EmptyString.

(** The line of one driver in [print_report], [text] being its last
    column. *)
Definition report_line (i : Z) (driver : DriverLapInfo) (text : string)
  : string :=
  decimal i ++ ". " ++ ljust 20 (driver_name driver) ++ " | "
  ++ ljust 30 (team driver) ++ " | " ++ text.

Definition no_time_text : string :=
  "NO TIME COULD BE DETERMINED BASED ON INPUT FILES".

(** The body of the loop of [print_report]: what it prints and how it
    ends. *)
Definition print_entry (order : string) (total : Z) (entry : Z * DriverLapInfo)
  : list string * result unit :=
  let '(i, driver) := entry in
  let rule :=
    if String.eqb order "desc" && (total - i =? 14) then [eliminated_rule]
    else if String.eqb order "asc" && (i =? 16) then [eliminated_rule]
    else [] in
  match driver_lap_time driver with
  | Raise e => (rule, Raise e)
  | Ok time_str =>
      match driver_lap_time driver with
      | Raise e => (rule, Raise e)
      | Ok (Some _) =>
          ((rule ++ [report_line i driver (py_str time_str)])%list, Ok tt)
      | Ok None => ((rule ++ [report_line i driver no_time_text])%list, Ok tt)
      end
  end.

(** A loop of printing bodies, stopped by the first exception. *)
Fixpoint print_each {A : Type} (body : A -> list string * result unit)
    (l : list A) : list string * result unit :=
  match l with
  | [] => ([], Ok tt)
  | x :: l' =>
      match body x with
      | (out, Ok _) =>
          let '(out', r) := print_each body l' in ((out ++ out')%list, r)
      | (out, Raise e) => (out, Raise e)
      end
  end.

Definition print_report (order : string) (drivers : dict DriverLapInfo)
  : list string * result unit :=
  match rank_drivers order drivers with
  | Raise e => ([], Raise e)
  | Ok ranked_drivers =>
      let '(out, r) :=
        print_each (print_entry order (Z.of_nat (List.length ranked_drivers)))
          (enumerate 1 ranked_drivers) in
      (report_title :: out, r)
  end.

(** The loop of [driver_info] over [drivers.values()]. *)
Fixpoint driver_info_loop (name : string) (l : list DriverLapInfo)
  : result string :=
  match l with
  | [] => Ok ("Driver " ++ name ++ " not found.")
  | driver :: l' =>
      if String.eqb (driver_name driver) name then
        time_str <- driver_lap_time driver ;;
        Ok (ljust 20 (driver_name driver) ++ " | " ++ ljust 30 (team driver)
            ++ " | " ++ py_str time_str)
      else driver_info_loop name l'
  end.

Definition driver_info (name : string) (drivers : dict DriverLapInfo)
  : result string :=
  driver_info_loop name (dict_values drivers).

Module DriverRow.
(** An entry of [get_all_drivers]. *)
Record t : Type := {
  code : string;
  name : string;
  team : string
}.
End DriverRow.

Definition get_all_drivers (drivers : dict DriverLapInfo) : list DriverRow.t :=
  map (fun driver => {| DriverRow.code := driver_init driver;
                        DriverRow.name := driver_name driver;
                        DriverRow.team := team driver |})
    (dict_values drivers).

(** ** The other routes of [app.py]

    Each route is what it hands to [render_template]. *)
Module App.

(** [{'name': 'Not Found', 'team': 'N/A', 'lap_time': 'N/A'}] *)
Definition not_found : Info.t :=
  {| Info.name := "Not Found"; Info.team := "N/A"; Info.lap_time := "N/A" |}.

(** The route [/report/drivers/<driver_id>]: a returned dict has three keys
    and is true, [None] is false. *)
Definition driver_info (driver_id : string) (drivers : dict DriverLapInfo)
  : result (Info.t * string) :=
  info <- get_driver_info driver_id drivers ;;
  Ok (match info with Some i => i | None => not_found end, driver_id).

(** The route [/report/drivers/]. *)
Definition drivers (order_arg : option string) (records : dict DriverLapInfo)
  : list DriverRow.t * string :=
  let order := match order_arg with Some o => o | None => "asc" end in
  (get_all_drivers records, order).

End App.

(** ** Vocabulary of the further statements *)

(** The lines of a file, none when it cannot be opened. *)
Definition lines_of (f : file) : list string :=
  match f with
  | Some lines => lines
  | None => []
  end.

(** What a metadata line says: a code with a name and a team, when the line
    has three fields. *)
Definition parse_txt_line (line : string) : option (string * (string * string)) :=
  match split "_" (strip line) with
  | [code; name; tm] => Some (code, (name, tm))
  | _ => None
  end.

(** The name and team of the last metadata line that carries [code]. *)
Fixpoint last_meta (code : string) (lines : list string)
  : option (string * string) :=
  match lines with
  | [] => None
  | line :: rest =>
      match last_meta code rest with
      | Some nt => Some nt
      | None =>
          match parse_txt_line line with
          | Some (c, nt) => if String.eqb code c then Some nt else None
          | None => None
          end
      end
  end.

(** A record with the name and team of a metadata line, if any. *)
Definition named (nt : option (string * string)) (d : DriverLapInfo)
  : DriverLapInfo :=
  match nt with
  | Some (n, t) => set_name_team n t d
  | None => d
  end.

(** The codes of a list, each at its first place only. *)
Definition add_once (seen : list string) (c : string) : list string :=
  if existsb (String.eqb c) seen then seen else (seen ++ [c])%list.

Definition first_places (codes : list string) : list string :=
  fold_left add_once codes [].

(** The codes of the well-formed lines of a log, in file order. *)
Fixpoint line_codes (lines : list string) : list string :=
  match lines with
  | [] => []
  | line :: rest =>
      match parse_line line with
      | Some (c, _) => c :: line_codes rest
      | None => line_codes rest
      end
  end.

(** The lines that [print_report] prints for the entries [es]. *)
Definition entry_lines (es : list (Z * DriverLapInfo)) : list string :=
  map (fun e => report_line (fst e) (snd e)
                  (match driver_lap_time (snd e) with
                   | Ok (Some t) => timedelta_str t
                   | _ => no_time_text
                   end)) es.

(** Where the rule of [print_report] goes: before the entry of this index
    (from 0), if the order has a rule and the list is that long. *)
Definition rule_index (order : string) (total : nat) : option nat :=
  if String.eqb order "desc" then
    if (15 <=? total)%nat then Some (total - 15)%nat else None
  else if String.eqb order "asc" then
    if (16 <=? total)%nat then Some 15%nat else None
  else None.

(** The printed entries with the rule put before the entry of index [k]. *)
Definition with_rule (k : option nat) (lines : list string) : list string :=
  match k with
  | Some k => (firstn k lines ++ eliminated_rule :: skipn k lines)%list
  | None => lines
  end.

(** A folder with a line of [SVF] that goes on after the timestamp, and a
    metadata file that names [SVF] twice. *)
Definition folder_noisy : Folder :=
  {| start_log := Some [ln "  SVF2018-05-24_12:02:58.917 pit stop";
                        ln "NHR2018-05-24_12:02:49.914";
                        ln "SVF2018-05-24_12:03:00.000"];
     end_log := Some [ln "NHR2018-05-24_12:04:02.979";
                      ln "SVF2018-05-24_12:04:03.332"];
     abbreviations := Some [ln "SVF_S. Vettel_FERRARI";
                            ln "KMH_Kevin Magnussen_HAAS FERRARI";
                            ln "SVF_Sebastian Vettel_FERRARI"] |}.

Definition drivers_noisy : dict DriverLapInfo :=
  Eval vm_compute in
    match load folder_noisy with Ok d => d | Raise _ => [] end.

(** * Properties *)

Local Open Scope list_scope.

(** ** The exception monad and the loops *)

Lemma for_each_app {A S : Type} (body : S -> A -> result S) (l1 l2 : list A) (s : S) :
  for_each body (l1 ++ l2) s = (s' <- for_each body l1 s ;; for_each body l2 s').
Proof.
  revert s; induction l1 as [|x l1 IH]; intros s; simpl; [reflexivity|].
  destruct (body s x) as [s'|e]; simpl; [apply IH | reflexivity].
Qed.

(** ** [dict] *)

Lemma dict_get_set_same {V : Type} (k : string) (v : V) (d : dict V) :
  dict_get k (dict_set k v d) = Some v.
Proof.
  induction d as [|[k' v'] d IH]; simpl.
  - now rewrite String.eqb_refl.
  - destruct (String.eqb k k') eqn:E; simpl; rewrite E; [reflexivity | exact IH].
Qed.

Lemma dict_get_set_other {V : Type} (k k0 : string) (v : V) (d : dict V) :
  k0 <> k -> dict_get k0 (dict_set k v d) = dict_get k0 d.
Proof.
  intros Hne; induction d as [|[k' v'] d IH]; simpl.
  - apply String.eqb_neq in Hne. now rewrite Hne.
  - destruct (String.eqb k k') eqn:E; simpl.
    + apply String.eqb_eq in E; subst k'.
      apply String.eqb_neq in Hne. now rewrite Hne.
    + now rewrite IH.
Qed.

Lemma dict_get_None_keys {V : Type} (k : string) (d : dict V) :
  dict_get k d = None <-> ~ In k (dict_keys d).
Proof.
  induction d as [|[k' v'] d IH]; simpl.
  - tauto.
  - destruct (String.eqb k k') eqn:E.
    + apply String.eqb_eq in E; subst k'. split; [discriminate | tauto].
    + apply String.eqb_neq in E. rewrite IH. split.
      * intros H [H1 | H1]; [now apply E | now apply H].
      * tauto.
Qed.

Lemma dict_keys_set {V : Type} (k : string) (v : V) (d : dict V) :
  dict_keys (dict_set k v d)
  = if dict_mem k d then dict_keys d else dict_keys d ++ [k].
Proof.
  unfold dict_mem. induction d as [|[k' v'] d IH]; simpl; [reflexivity|].
  destruct (String.eqb k k') eqn:E; simpl; [reflexivity|].
  rewrite IH. now destruct (dict_get k d).
Qed.

Lemma dict_set_NoDup {V : Type} (k : string) (v : V) (d : dict V) :
  NoDup (dict_keys d) -> NoDup (dict_keys (dict_set k v d)).
Proof.
  intros H. rewrite dict_keys_set. unfold dict_mem.
  destruct (dict_get k d) eqn:E; [exact H|].
  apply dict_get_None_keys in E.
  apply NoDup_rev in H. rewrite <- (rev_involutive (dict_keys d ++ [k])).
  apply NoDup_rev. rewrite rev_app_distr. simpl. constructor; [|exact H].
  now rewrite <- in_rev.
Qed.

(** ** [read_log_file] *)

Lemma read_log_line_cases (data : dict datetime) (line : string) :
  read_log_line data line
  = match parse_line line with
    | Some (c, t) => Ok (dict_set c t data)
    | None => if clean_log_line line then Ok data else Raise ValueError
    end.
Proof.
  unfold read_log_line, parse_line, clean_log_line.
  destruct (re_match (strip line)) as [[c ts]|]; [|reflexivity].
  unfold strptime.
  match goal with |- context [if ?b then _ else _] => destruct b end;
    reflexivity.
Qed.

Lemma read_log_line_unmatched (data : dict datetime) (line : string) :
  re_match (strip line) = None -> read_log_line data line = Ok data.
Proof. unfold read_log_line. now intros ->. Qed.

(** The loop returns exactly on the files without an offending line. *)
Lemma read_lines_total (lines : list string) (data : dict datetime) :
  forallb clean_log_line lines = true ->
  exists d, for_each read_log_line lines data = Ok d.
Proof.
  revert data; induction lines as [|l lines IH]; intros data H; simpl in *.
  - now exists data.
  - apply andb_prop in H as [Hl H]. rewrite read_log_line_cases.
    destruct (parse_line l) as [[c t]|]; simpl.
    + apply IH, H.
    + rewrite Hl. simpl. apply IH, H.
Qed.

Lemma read_lines_clean (lines : list string) (data d : dict datetime) :
  for_each read_log_line lines data = Ok d ->
  forallb clean_log_line lines = true.
Proof.
  revert data; induction lines as [|l lines IH]; intros data H; simpl in *;
    [reflexivity|].
  rewrite read_log_line_cases in H. unfold clean_log_line, parse_line in *.
  destruct (re_match (strip l)) as [[c ts]|]; simpl in *.
  - destruct (strptime ts); simpl in *; [eauto | discriminate].
  - eauto.
Qed.

(** What the loop leaves in the mapping: per code, the timestamp of its last
    well-formed line, over what the mapping held before. *)
Lemma read_lines_spec (lines : list string) (data d : dict datetime) :
  for_each read_log_line lines data = Ok d ->
  (NoDup (dict_keys data) -> NoDup (dict_keys d))
  /\ forall c, dict_get c d
               = match last_stamp c lines with
                 | Some t => Some t
                 | None => dict_get c data
                 end.
Proof.
  revert data; induction lines as [|l lines IH]; intros data H; simpl in *.
  - injection H as <-. split; [tauto | reflexivity].
  - rewrite read_log_line_cases in H.
    destruct (parse_line l) as [[c0 t0]|] eqn:P; simpl in H.
    + apply IH in H as [Hnd Hget]. split.
      * intros Hd. apply Hnd, dict_set_NoDup, Hd.
      * intros c. rewrite Hget. destruct (last_stamp c lines); [reflexivity|].
        destruct (String.eqb c c0) eqn:E.
        -- apply String.eqb_eq in E; subst. apply dict_get_set_same.
        -- apply String.eqb_neq in E. now apply dict_get_set_other.
    + destruct (clean_log_line l); simpl in H; [|discriminate].
      apply IH in H as [Hnd Hget]. split; [exact Hnd|].
      intros c. rewrite Hget. now destruct (last_stamp c lines).
Qed.

Lemma NoDup_count_one (l : list string) (c : string) :
  NoDup l -> In c l -> count_occ string_dec l c = 1%nat.
Proof.
  intros Hnd Hin. apply NoDup_count_occ with (decA := string_dec) (x := c) in Hnd.
  apply (count_occ_In string_dec) in Hin. lia.
Qed.

Lemma dict_get_Some_keys {V : Type} (k : string) (v : V) (d : dict V) :
  dict_get k d = Some v -> In k (dict_keys d).
Proof.
  intros H. destruct (in_dec string_dec k (dict_keys d)) as [Hin|Hin];
    [exact Hin|].
  apply dict_get_None_keys in Hin. congruence.
Qed.

(** ** [process_files] and [integrate_driver_info] *)

Lemma dict_set_Forall {V : Type} (P : string * V -> Prop) (k : string) (v : V)
    (d : dict V) :
  Forall P d -> P (k, v) -> Forall P (dict_set k v d).
Proof.
  intros Hd Hk; induction Hd as [|[k' v'] d Hx Hd IH]; simpl.
  - now constructor.
  - destruct (String.eqb k k') eqn:E.
    + apply String.eqb_eq in E; subst k'. now constructor.
    + now constructor.
Qed.

Lemma dict_mem_set {V : Type} (k c : string) (v : V) (d : dict V) :
  dict_mem c (dict_set k v d) = String.eqb c k || dict_mem c d.
Proof.
  unfold dict_mem. destruct (String.eqb c k) eqn:E; simpl.
  - apply String.eqb_eq in E; subst. now rewrite dict_get_set_same.
  - apply String.eqb_neq in E. now rewrite dict_get_set_other.
Qed.

Lemma add_driver_built (end_times : dict datetime) (drivers : dict DriverLapInfo)
    (item : string * datetime) :
  add_driver end_times drivers item
  = dict_set (fst item) (built end_times item) drivers.
Proof.
  destruct item as [c s]. unfold add_driver, built; simpl.
  now destruct (dict_get c end_times).
Qed.

Section BuildLoop.
Variable end_times : dict datetime.

Lemma build_Forall (P : string * DriverLapInfo -> Prop)
    (start_times : dict datetime) (drivers : dict DriverLapInfo) :
  (forall item, P (fst item, built end_times item)) ->
  Forall P drivers ->
  Forall P (fold_left (add_driver end_times) start_times drivers).
Proof.
  intros HP. revert drivers.
  induction start_times as [|item st IH]; intros drivers Hd; simpl;
    [exact Hd|].
  apply IH. rewrite add_driver_built. apply dict_set_Forall; auto.
Qed.

Lemma build_NoDup (start_times : dict datetime) (drivers : dict DriverLapInfo) :
  NoDup (dict_keys drivers) ->
  NoDup (dict_keys (fold_left (add_driver end_times) start_times drivers)).
Proof.
  revert drivers.
  induction start_times as [|item st IH]; intros drivers Hd; simpl;
    [exact Hd|].
  apply IH. rewrite add_driver_built. now apply dict_set_NoDup.
Qed.

Lemma build_mem (c : string) (start_times : dict datetime)
    (drivers : dict DriverLapInfo) :
  dict_mem c (fold_left (add_driver end_times) start_times drivers)
  = dict_mem c drivers || existsb (String.eqb c) (dict_keys start_times).
Proof.
  revert drivers.
  induction start_times as [|item st IH]; intros drivers; simpl.
  - now rewrite orb_false_r.
  - rewrite IH, add_driver_built, dict_mem_set.
    now destruct (String.eqb c (fst item)), (dict_mem c drivers).
Qed.
End BuildLoop.

Lemma integrate_line_cases (drivers : dict DriverLapInfo) (line : string) :
  integrate_line drivers line
  = if clean_txt_line line then
      match split "_" (strip line) with
      | code :: name :: tm :: _ =>
          match dict_get code drivers with
          | Some d => Ok (dict_set code (set_name_team name tm d) drivers)
          | None => Ok drivers
          end
      | _ => Ok drivers
      end
    else Raise ValueError.
Proof.
  unfold integrate_line, clean_txt_line.
  destruct (split "_" (strip line)) as [|a [|b [|c [|x l]]]]; reflexivity.
Qed.

Lemma dict_set_update_timing (k : string) (n t : string) (v : DriverLapInfo)
    (d : dict DriverLapInfo) :
  dict_get k d = Some v ->
  map timing (dict_set k (set_name_team n t v) d) = map timing d.
Proof.
  induction d as [|[k' v'] d IH]; simpl; [discriminate|].
  destruct (String.eqb k k') eqn:E; simpl.
  - intros [= ->]. reflexivity.
  - intros H. now rewrite IH.
Qed.

Lemma integrate_line_timing (drivers d' : dict DriverLapInfo) (line : string) :
  integrate_line drivers line = Ok d' -> map timing d' = map timing drivers.
Proof.
  rewrite integrate_line_cases.
  destruct (clean_txt_line line); [|discriminate].
  destruct (split "_" (strip line)) as [|a [|b [|c l]]];
    try (intros [= <-]; reflexivity).
  destruct (dict_get a drivers) as [v|] eqn:G; intros [= <-];
    [now apply dict_set_update_timing | reflexivity].
Qed.

Lemma integrate_lines_timing (lines : list string)
    (drivers d' : dict DriverLapInfo) :
  for_each integrate_line lines drivers = Ok d' ->
  map timing d' = map timing drivers.
Proof.
  revert drivers; induction lines as [|l lines IH]; intros drivers H;
    simpl in H.
  - now injection H as <-.
  - destruct (integrate_line drivers l) as [d1|e] eqn:E; simpl in H;
      [|discriminate].
    rewrite (IH _ H). eapply integrate_line_timing, E.
Qed.

Lemma integrate_timing (txt : file) (drivers d' : dict DriverLapInfo) :
  integrate_driver_info txt drivers = Ok d' ->
  map timing d' = map timing drivers.
Proof.
  destruct txt as [lines|]; simpl.
  - apply integrate_lines_timing.
  - now intros [= <-].
Qed.

Lemma timing_keys (d : dict DriverLapInfo) :
  dict_keys d = map fst (map timing d).
Proof. unfold dict_keys. rewrite map_map. reflexivity. Qed.

(** The metadata pass returns on the files whose lines all have three
    fields. *)
Lemma integrate_lines_total (lines : list string) (drivers : dict DriverLapInfo) :
  forallb clean_txt_line lines = true ->
  exists d', for_each integrate_line lines drivers = Ok d'.
Proof.
  revert drivers; induction lines as [|l lines IH]; intros drivers H;
    simpl in *.
  - now exists drivers.
  - apply andb_prop in H as [Hl H]. rewrite integrate_line_cases, Hl.
    destruct (split "_" (strip l)) as [|a [|b [|c r]]]; simpl; auto.
    destruct (dict_get a drivers); simpl; auto.
Qed.

Lemma integrate_lines_empty (lines : list string) :
  forallb clean_txt_line lines = true ->
  for_each integrate_line lines [] = Ok [].
Proof.
  intros H. destruct (integrate_lines_total lines [] H) as [d' Hd].
  rewrite Hd. apply integrate_lines_timing in Hd.
  destruct d'; [reflexivity | discriminate].
Qed.

Lemma bind_Ok {A B : Type} (m : result A) (k : A -> result B) (b : B) :
  (x <- m ;; k x) = Ok b -> exists a, m = Ok a /\ k a = Ok b.
Proof. destruct m as [a|e]; simpl; [eauto | discriminate]. Qed.

Lemma build_keys (end_times start_times : dict datetime)
    (drivers : dict DriverLapInfo) :
  NoDup (dict_keys drivers ++ dict_keys start_times) ->
  dict_keys (fold_left (add_driver end_times) start_times drivers)
  = dict_keys drivers ++ dict_keys start_times.
Proof.
  revert drivers.
  induction start_times as [|item st IH]; intros drivers Hnd; simpl in *.
  - now rewrite app_nil_r.
  - assert (Hfresh : dict_mem (fst item) drivers = false).
    { unfold dict_mem. destruct (dict_get (fst item) drivers) eqn:G;
        [|reflexivity].
      apply dict_get_Some_keys in G. apply NoDup_remove_2 in Hnd.
      exfalso. apply Hnd, in_or_app. now left. }
    assert (Hkeys : dict_keys (add_driver end_times drivers item)
                    = dict_keys drivers ++ [fst item]).
    { now rewrite add_driver_built, dict_keys_set, Hfresh. }
    rewrite IH; rewrite Hkeys, <- app_assoc; [reflexivity | exact Hnd].
Qed.

Lemma read_log_file_NoDup (f : file) (d : dict datetime) :
  read_log_file f = Ok d -> NoDup (dict_keys d).
Proof.
  destruct f as [lines|]; simpl.
  - intros H. apply read_lines_spec in H as [H _]. apply H. constructor.
  - intros [= <-]. constructor.
Qed.

Lemma read_log_file_total (f : file) :
  clean clean_log_line f = true -> exists d, read_log_file f = Ok d.
Proof.
  destruct f as [lines|]; simpl; [apply read_lines_total | now exists []].
Qed.

Lemma integrate_total (txt : file) (drivers : dict DriverLapInfo) :
  clean clean_txt_line txt = true ->
  exists d', integrate_driver_info txt drivers = Ok d'.
Proof.
  destruct txt as [lines|]; simpl;
    [apply integrate_lines_total | now exists drivers].
Qed.

(** The load step seen as its three reads. *)
Lemma load_inv (dir : Folder) (drivers : dict DriverLapInfo) :
  load dir = Ok drivers ->
  exists start_times end_times,
    read_log_file (start_log dir) = Ok start_times
    /\ read_log_file (end_log dir) = Ok end_times
    /\ integrate_driver_info (abbreviations dir)
         (fold_left (add_driver end_times) start_times []) = Ok drivers.
Proof.
  unfold load, process_files. intros H.
  apply bind_Ok in H as (st & Hst & H). apply bind_Ok in H as (en & Hen & H).
  eauto.
Qed.

Lemma load_total (dir : Folder) :
  readable_clean dir = true -> exists drivers, load dir = Ok drivers.
Proof.
  unfold readable_clean. intros H.
  apply andb_prop in H as [H Ht]. apply andb_prop in H as [Hs He].
  destruct (read_log_file_total _ Hs) as [st Hst].
  destruct (read_log_file_total _ He) as [en Hen].
  unfold load, process_files. rewrite Hst, Hen. simpl.
  now apply integrate_total.
Qed.

(** Every record of the loaded mapping sits under its own code, with the
    end time the end log holds for that code, and no code sits twice. *)
Lemma load_records (dir : Folder) (drivers : dict DriverLapInfo)
    (start_times end_times : dict datetime) :
  load dir = Ok drivers ->
  read_log_file (start_log dir) = Ok start_times ->
  read_log_file (end_log dir) = Ok end_times ->
  dict_keys drivers = dict_keys start_times
  /\ NoDup (dict_keys drivers)
  /\ Forall (fun kv => driver_init (snd kv) = fst kv
                       /\ end_time (snd kv) = dict_get (fst kv) end_times)
       drivers.
Proof.
  intros H Hst Hen. apply load_inv in H as (st & en & Hst' & Hen' & H).
  rewrite Hst in Hst'. rewrite Hen in Hen'.
  injection Hst' as <-. injection Hen' as <-.
  apply integrate_timing in H.
  assert (Hk : dict_keys (fold_left (add_driver end_times) start_times [])
               = dict_keys start_times).
  { apply (build_keys end_times start_times []). simpl.
    eapply read_log_file_NoDup, Hst. }
  split; [|split].
  - now rewrite timing_keys, H, <- timing_keys.
  - rewrite timing_keys, H, <- timing_keys, Hk.
    eapply read_log_file_NoDup, Hst.
  - assert (Hb : Forall (fun kv => driver_init (snd kv) = fst kv
                          /\ end_time (snd kv) = dict_get (fst kv) end_times)
                   (fold_left (add_driver end_times) start_times [])).
    { apply build_Forall; [|constructor]. intros item. simpl. now split. }
    revert Hb H. generalize (fold_left (add_driver end_times) start_times []).
    intros d0; revert d0.
    induction drivers as [|kv drivers IH]; intros [|kv0 d0] Hb H;
      simpl in H; try discriminate; constructor.
    + inversion Hb as [|? ? [H1 H2] _]; subst. unfold timing in H.
      injection H as Hf Hi Hs He _. split; congruence.
    + inversion Hb; subst. injection H as _ _ _ _ H. eapply IH; eauto.
Qed.

(** ** Lines the pattern does not match *)

(** C9.  A line of [start.log] or [end.log] that the pattern does not match
    is passed over: the file read with the line and the file read without
    it give the same mapping (or the same exception, when another line
    raises), so the whole load step is the same with and without the line;
    and a code that no other line of the start log carries gets no record. *)
Theorem unmatched_log_line_is_skipped (line : string) (pre post : list string) :
  re_match (strip line) = None ->
  read_log_file (Some (pre ++ line :: post)) = read_log_file (Some (pre ++ post))
  /\ (forall other txt drivers,
        process_files {| start_log := Some (pre ++ line :: post);
                         end_log := other; abbreviations := txt |} drivers
        = process_files {| start_log := Some (pre ++ post);
                           end_log := other; abbreviations := txt |} drivers)
  /\ (forall other txt drivers,
        process_files {| start_log := other;
                         end_log := Some (pre ++ line :: post);
                         abbreviations := txt |} drivers
        = process_files {| start_log := other; end_log := Some (pre ++ post);
                           abbreviations := txt |} drivers)
  /\ (forall code other txt drivers,
        last_stamp code (pre ++ post) = None ->
        load {| start_log := Some (pre ++ line :: post);
                end_log := other; abbreviations := txt |} = Ok drivers ->
        dict_get code drivers = None).
Proof.
  intros Hline.
  assert (Hread : read_log_file (Some (pre ++ line :: post))
                  = read_log_file (Some (pre ++ post))).
  { simpl. rewrite !for_each_app.
    destruct (for_each read_log_line pre []) as [d|e]; simpl; [|reflexivity].
    now rewrite read_log_line_unmatched. }
  repeat split.
  - exact Hread.
  - intros other txt drivers. unfold process_files.
    cbn [start_log end_log abbreviations]. now rewrite Hread.
  - intros other txt drivers. unfold process_files.
    cbn [start_log end_log abbreviations]. now rewrite Hread.
  - intros code other txt drivers Hlast Hload.
    destruct (load_inv _ _ Hload) as (st & en & Hst & Hen & _).
    destruct (load_records _ _ _ _ Hload Hst Hen) as (Hkeys & _ & _).
    cbn [start_log] in Hst. rewrite Hread in Hst. simpl in Hst.
    apply read_lines_spec in Hst as [_ Hget].
    apply dict_get_None_keys. rewrite Hkeys. apply dict_get_None_keys.
    rewrite Hget, Hlast. reflexivity.
Qed.

(** The line ["XYZ_not_a_timestamp"] of the specification, after a
    well-formed line of [SVF]. *)
Lemma unmatched_log_line_is_skipped_witness :
  read_log_file (Some [ln "SVF2018-05-24_12:02:58.917"; ln "XYZ_not_a_timestamp"])
  = Ok [("SVF", 63662846578917000)]
  /\ (forall drivers,
        load {| start_log :=
                  Some [ln "SVF2018-05-24_12:02:58.917"; ln "XYZ_not_a_timestamp"];
                end_log := None; abbreviations := None |} = Ok drivers ->
        dict_get "XYZ" drivers = None).
Proof.
  destruct (unmatched_log_line_is_skipped (ln "XYZ_not_a_timestamp")
              [ln "SVF2018-05-24_12:02:58.917"] [] eq_refl)
    as (Hread & _ & _ & Hrec).
  split.
  - etransitivity; [exact Hread | reflexivity].
  - intros drivers. apply Hrec. reflexivity.
Defined.

(** ** A code on several lines *)

(** C10.  In a log file that [read_log_file] reads to its end (no line that
    matches the pattern carries an impossible date), the mapping holds no
    code twice, and under each code the timestamp of the last well-formed
    line that carries it, so a code with such a line has exactly one entry;
    the record mapping built from the file has the same codes, none twice,
    each record under its own code. *)
Theorem later_line_overwrites (lines : list string) :
  forallb clean_log_line lines = true ->
  exists d,
    read_log_file (Some lines) = Ok d
    /\ NoDup (dict_keys d)
    /\ (forall code, dict_get code d = last_stamp code lines)
    /\ (forall code t, last_stamp code lines = Some t ->
          count_occ string_dec (dict_keys d) code = 1%nat)
    /\ (forall other txt,
          clean clean_log_line other = true ->
          clean clean_txt_line txt = true ->
          exists drivers,
            load {| start_log := Some lines; end_log := other;
                    abbreviations := txt |} = Ok drivers
            /\ dict_keys drivers = dict_keys d
            /\ NoDup (dict_keys drivers)
            /\ Forall (fun kv => driver_init (snd kv) = fst kv) drivers).
Proof.
  intros Hclean.
  destruct (read_lines_total lines [] Hclean) as [d Hd].
  exists d. pose proof (read_lines_spec _ _ _ Hd) as [Hnd Hget].
  assert (Hnd' : NoDup (dict_keys d)) by (apply Hnd; constructor).
  assert (Hget' : forall code, dict_get code d = last_stamp code lines).
  { intros code. rewrite Hget. now destruct (last_stamp code lines). }
  repeat split; trivial.
  - intros code t Ht. apply NoDup_count_one; [exact Hnd'|].
    eapply dict_get_Some_keys. rewrite Hget'. exact Ht.
  - intros other txt Ho Ht.
    destruct (load_total {| start_log := Some lines; end_log := other;
                            abbreviations := txt |}) as [drivers Hload].
    { unfold readable_clean. cbn [start_log end_log abbreviations clean].
      now rewrite Hclean, Ho, Ht. }
    exists drivers.
    destruct (load_inv _ _ Hload) as (st & en & Hst & Hen & _).
    destruct (load_records _ _ _ _ Hload Hst Hen) as (Hkeys & Hnd2 & Hrec).
    cbn [start_log] in Hst. simpl in Hst. rewrite Hd in Hst.
    injection Hst as <-.
    repeat split; trivial.
    eapply Forall_impl; [|exact Hrec]. now intros kv [H _].
Qed.

(** A start log with two well-formed lines of [SVF]: the later one stays. *)
Lemma later_line_overwrites_witness :
  exists d,
    read_log_file (Some start_with_repeat) = Ok d
    /\ dict_get "SVF" d = Some 63662846580000000
    /\ count_occ string_dec (dict_keys d) "SVF" = 1%nat.
Proof.
  destruct (later_line_overwrites start_with_repeat eq_refl)
    as (d & Hd & _ & Hget & Hone & _).
  exists d. split; [exact Hd|]. split.
  - rewrite Hget. reflexivity.
  - apply (Hone "SVF" 63662846580000000). reflexivity.
Defined.

(** ** Files that cannot be opened *)







(** ** Metadata lines without three fields *)

(** C4, as the code has it.  Unpacking the fields of a metadata line that
    has not exactly three of them raises [ValueError], which no handler of
    the metadata pass catches: the pass stops at the first such line, the
    lines after it are not applied, and the load step raises with it. *)
Theorem metadata_line_without_three_fields_raises
    (pre post : list string) (bad : string) (drivers : dict DriverLapInfo) :
  forallb clean_txt_line pre = true ->
  clean_txt_line bad = false ->
  integrate_driver_info (Some (pre ++ bad :: post)) drivers = Raise ValueError
  /\ (forall start_ end_,
        clean clean_log_line start_ = true ->
        clean clean_log_line end_ = true ->
        load {| start_log := start_; end_log := end_;
                abbreviations := Some (pre ++ bad :: post) |}
        = Raise ValueError).
Proof.
  intros Hpre Hbad.
  assert (Hraise : forall d,
             integrate_driver_info (Some (pre ++ bad :: post)) d
             = Raise ValueError).
  { intros d. simpl. rewrite for_each_app.
    destruct (integrate_lines_total pre d Hpre) as [d' ->]. simpl.
    now rewrite integrate_line_cases, Hbad. }
  split; [apply Hraise|].
  intros start_ end_ Hs He. unfold load, process_files.
  cbn [start_log end_log abbreviations].
  destruct (read_log_file_total _ Hs) as [st ->].
  destruct (read_log_file_total _ He) as [en ->]. simpl bind.
  apply Hraise.
Qed.

(** The sample folder whose metadata file has the line
    ["DRR_Daniel Ricciardo"]. *)
Lemma metadata_line_without_three_fields_raises_witness :
  integrate_driver_info (Some txt_short_line) [] = Raise ValueError
  /\ load folder_short_line = Raise ValueError.
Proof.
  destruct (metadata_line_without_three_fields_raises
              [ln "SVF_Sebastian Vettel_FERRARI"]
              [ln "NHR_Nico Hulkenberg_RENAULT"]
              (ln "DRR_Daniel Ricciardo") [] eq_refl eq_refl) as [H1 H2].
  split; [exact H1|].
  exact (H2 (Some sample_start) (Some sample_end) eq_refl eq_refl).
Defined.

(** ** The stable sort *)

Section SortFacts.
Context {K A : Type} (lt : K -> K -> bool).

Lemma insert_perm (x : K * A) (l : list (K * A)) :
  Permutation (insert lt x l) (x :: l).
Proof.
  induction l as [|y l IH]; simpl; [reflexivity|].
  destruct (lt (fst y) (fst x)); [|reflexivity].
  rewrite IH. apply perm_swap.
Qed.

Lemma stable_sort_perm (l : list (K * A)) : Permutation (stable_sort lt l) l.
Proof.
  induction l as [|x l IH]; simpl; [reflexivity|].
  rewrite insert_perm. now constructor.
Qed.

Variable P : K -> Prop.
Hypothesis lt_asym : forall a b, lt a b = true -> lt b a = false.
Hypothesis le_trans : forall a b c, P a -> P b -> P c ->
  lt b a = false -> lt c b = false -> lt c a = false.

Lemma insert_sorted (x : K * A) (l : list (K * A)) :
  P (fst x) -> Forall (fun y => P (fst y)) l ->
  StronglySorted (not_after lt) l -> StronglySorted (not_after lt) (insert lt x l).
Proof.
  intros Px HP Hs. induction Hs as [|y l Hs IH Hy]; simpl.
  - repeat constructor.
  - inversion HP as [|? ? Py HPl]; subst.
    destruct (lt (fst y) (fst x)) eqn:E.
    + constructor; [now apply IH|].
      eapply Permutation_Forall; [symmetry; apply insert_perm|].
      constructor; [|exact Hy]. unfold not_after. now apply lt_asym.
    + constructor; [now constructor|].
      constructor; [exact E|].
      rewrite Forall_forall in Hy, HPl |- *. intros z Hz. unfold not_after.
      apply (le_trans (fst x) (fst y) (fst z)); auto.
      now apply Hy.
Qed.

Lemma stable_sort_sorted (l : list (K * A)) :
  Forall (fun y => P (fst y)) l -> StronglySorted (not_after lt) (stable_sort lt l).
Proof.
  induction l as [|x l IH]; simpl; intros HP; [constructor|].
  inversion HP; subst. apply insert_sorted; auto.
  eapply Permutation_Forall; [symmetry; apply stable_sort_perm | assumption].
Qed.

(** In a sorted list, the elements of a downward closed class come first. *)
Lemma sorted_partition (p : K * A -> bool) (l : list (K * A)) :
  StronglySorted (not_after lt) l ->
  (forall x y, In x l -> In y l -> not_after lt x y -> p y = true -> p x = true) ->
  l = filter p l ++ filter (fun x => negb (p x)) l.
Proof.
  intros Hs. induction Hs as [|x l Hs IH Hx]; intros Hp; simpl;
    [reflexivity|].
  destruct (p x) eqn:Epx; simpl.
  - f_equal. apply IH. intros a b Ha Hb. apply Hp; now right.
  - assert (Hnone : forall y, In y l -> p y = false).
    { intros y Hy. destruct (p y) eqn:Epy; [|reflexivity].
      rewrite Forall_forall in Hx.
      rewrite (Hp x y) in Epx; auto; [now left | now right]. }
    assert (Hf : filter p l = []).
    { clear -Hnone. induction l as [|y l IH]; simpl; [reflexivity|].
      rewrite (Hnone y) by now left. apply IH. intros z Hz.
      apply Hnone. now right. }
    assert (Hg : filter (fun x => negb (p x)) l = l).
    { clear -Hnone. induction l as [|y l IH]; simpl; [reflexivity|].
      rewrite (Hnone y) by now left. simpl. f_equal. apply IH.
      intros z Hz. apply Hnone. now right. }
    rewrite Hf, Hg. reflexivity.
Qed.
End SortFacts.

(** ** The sort keys *)

Lemma key_lt_asym (a b : sort_key) : key_lt a b = true -> key_lt b a = false.
Proof.
  destruct a as [[|] [x|]], b as [[|] [y|]]; unfold key_lt; simpl;
    try congruence.
  all: rewrite Z.ltb_lt, Z.ltb_ge; lia.
Qed.

Lemma key_le_trans (a b c : sort_key) :
  valid_key a -> valid_key b -> valid_key c ->
  key_lt b a = false -> key_lt c b = false -> key_lt c a = false.
Proof.
  intros [->|[x ->]] [->|[y ->]] [->|[z ->]]; unfold key_lt; simpl;
    try congruence.
  all: rewrite !Z.ltb_ge; lia.
Qed.

Lemma key_le_antisym (a b : sort_key) :
  valid_key a -> valid_key b ->
  key_lt a b = false -> key_lt b a = false -> a = b.
Proof.
  intros [->|[x ->]] [->|[y ->]]; unfold key_lt; simpl; try congruence.
  all: rewrite !Z.ltb_ge; intros H1 H2; do 2 f_equal; lia.
Qed.

Lemma driver_lap_time_timed (d : DriverLapInfo) :
  has_end_time d = true -> exists v, driver_lap_time d = Ok v.
Proof.
  unfold has_end_time, driver_lap_time. destruct (end_time d) as [e|];
    [|discriminate].
  intros _. destruct (e <? start_time d); eauto.
Qed.

Lemma driver_lap_time_untimed (d : DriverLapInfo) :
  end_time d = None -> driver_lap_time d = Raise AttributeError.
Proof. unfold driver_lap_time. now intros ->. Qed.

Lemma driver_lap_time_raises (d : DriverLapInfo) (e : exn) :
  driver_lap_time d = Raise e -> e = AttributeError.
Proof.
  unfold driver_lap_time. destruct (end_time d) as [t|].
  - destruct (t <? start_time d); discriminate.
  - now intros [= <-].
Qed.

Lemma rank_key_cases (d : DriverLapInfo) :
  rank_key d
  = match driver_lap_time d with
    | Ok v => Ok (match v with None => true | Some _ => false end, v)
    | Raise e => Raise e
    end.
Proof. unfold rank_key. now destruct (driver_lap_time d). Qed.

Lemma rank_key_Ok (d : DriverLapInfo) (k : sort_key) :
  rank_key d = Ok k ->
  valid_key k /\ driver_lap_time d = Ok (snd k)
  /\ fst k = undefined_duration d /\ fst k = negb (defined_duration d).
Proof.
  rewrite rank_key_cases. unfold undefined_duration, defined_duration.
  destruct (driver_lap_time d) as [[t|]|e]; intros [= <-]; simpl;
    repeat split; unfold valid_key; eauto.
Qed.

(** The keyed list that [list.sort] builds before it compares anything. *)
Lemma keyed_total (l : list DriverLapInfo) :
  forallb has_end_time l = true ->
  exists keyed,
    map_result (fun x => k <- rank_key x ;; Ok (k, x)) l = Ok keyed.
Proof.
  induction l as [|d l IH]; simpl; intros H; [now eexists|].
  apply andb_prop in H as [Hd Hl].
  destruct (driver_lap_time_timed d Hd) as [v Hv].
  destruct (IH Hl) as [keyed Hk].
  rewrite rank_key_cases, Hv. simpl. rewrite Hk. simpl. now eexists.
Qed.

Lemma keyed_spec (l : list DriverLapInfo) (keyed : list (sort_key * DriverLapInfo)) :
  map_result (fun x => k <- rank_key x ;; Ok (k, x)) l = Ok keyed ->
  map snd keyed = l
  /\ Forall (fun kx => rank_key (snd kx) = Ok (fst kx)) keyed.
Proof.
  revert keyed; induction l as [|d l IH]; simpl; intros keyed H.
  - injection H as <-. split; constructor.
  - apply bind_Ok in H as ([k x] & Hk & H).
    apply bind_Ok in Hk as (k' & Hk' & Hk). injection Hk as <- <-.
    apply bind_Ok in H as (ys & Hys & H). injection H as <-.
    destruct (IH _ Hys) as [H1 H2]. simpl. split; [now f_equal|].
    now constructor.
Qed.

Lemma keyed_timed (l : list DriverLapInfo) (keyed : list (sort_key * DriverLapInfo)) :
  map_result (fun x => k <- rank_key x ;; Ok (k, x)) l = Ok keyed ->
  forallb has_end_time l = true.
Proof.
  revert keyed; induction l as [|d l IH]; simpl; intros keyed H;
    [reflexivity|].
  apply bind_Ok in H as ([k x] & Hk & H).
  apply bind_Ok in H as (ys & Hys & _). rewrite (IH _ Hys), andb_true_r.
  apply bind_Ok in Hk as (k' & Hk' & _). rewrite rank_key_cases in Hk'.
  unfold has_end_time, driver_lap_time in *.
  now destruct (end_time d).
Qed.

Lemma keyed_raises (l : list DriverLapInfo) (d : DriverLapInfo) :
  In d l -> end_time d = None ->
  map_result (fun x => k <- rank_key x ;; Ok (k, x)) l = Raise AttributeError.
Proof.
  intros Hin Hd.
  destruct (map_result (fun x => k <- rank_key x ;; Ok (k, x)) l)
    as [keyed|e] eqn:E.
  - apply keyed_timed in E. rewrite forallb_forall in E.
    specialize (E d Hin). unfold has_end_time in E. now rewrite Hd in E.
  - f_equal. clear Hin Hd. revert e E.
    induction l as [|x l IH]; simpl; intros e E; [discriminate|].
    rewrite rank_key_cases in E.
    destruct (driver_lap_time x) as [v|e'] eqn:Ex; simpl in E.
    + destruct (map_result _ l) as [ys|e'']; simpl in E; [discriminate|].
      injection E as <-. now apply IH.
    + injection E as <-. eapply driver_lap_time_raises, Ex.
Qed.

Lemma rank_drivers_inv (order : string) (drivers : dict DriverLapInfo)
    (ranked : list DriverLapInfo) :
  rank_drivers order drivers = Ok ranked ->
  exists keyed,
    map_result (fun x => k <- rank_key x ;; Ok (k, x)) (dict_values drivers)
    = Ok keyed
    /\ ranked = map snd (if String.eqb order "desc"
                         then rev (stable_sort key_lt (rev keyed))
                         else stable_sort key_lt keyed).
Proof.
  unfold rank_drivers, list_sort. intros H.
  apply bind_Ok in H as (keyed & Hk & H). injection H as <-. eauto.
Qed.

Lemma rank_drivers_total (order : string) (drivers : dict DriverLapInfo) :
  all_timed drivers = true ->
  exists ranked, rank_drivers order drivers = Ok ranked.
Proof.
  intros H. destruct (keyed_total _ H) as [keyed Hk].
  unfold rank_drivers, list_sort. rewrite Hk. simpl. now eexists.
Qed.

Lemma rank_drivers_raises (order : string) (drivers : dict DriverLapInfo)
    (d : DriverLapInfo) :
  In d (dict_values drivers) -> end_time d = None ->
  rank_drivers order drivers = Raise AttributeError.
Proof.
  intros Hin Hd. unfold rank_drivers, list_sort.
  now rewrite (keyed_raises _ d Hin Hd).
Qed.

Lemma dict_get_In {V : Type} (k : string) (v : V) (d : dict V) :
  dict_get k d = Some v -> In (k, v) d.
Proof.
  induction d as [|[k' v'] d IH]; simpl; [discriminate|].
  destruct (String.eqb k k') eqn:E.
  - apply String.eqb_eq in E; subst. intros [= ->]. now left.
  - intros H. right. now apply IH.
Qed.

Lemma dict_get_In_values {V : Type} (k : string) (v : V) (d : dict V) :
  dict_get k d = Some v -> In v (dict_values d).
Proof.
  intros H. apply dict_get_In in H. unfold dict_values.
  now apply (in_map snd) in H.
Qed.

(** ** The lap-time field *)

Lemma lap_time_or_sentinel_cases (d : DriverLapInfo) :
  lap_time_or_sentinel d
  = match driver_lap_time d with
    | Ok v => Ok (if truthy v then py_str v else "NO TIME")
    | Raise e => Raise e
    end.
Proof.
  unfold lap_time_or_sentinel.
  destruct (driver_lap_time d) as [v|e]; simpl; [|reflexivity].
  now destruct (truthy v).
Qed.

Lemma decimal_first (n : Z) :
  exists c s, decimal n = String c s /\ c <> "N"%char.
Proof.
  unfold decimal. destruct (Z.to_int n) as [u|u]; destruct u; simpl;
    do 2 eexists; (split; [reflexivity | discriminate]).
Qed.

Lemma timedelta_str_first (t : timedelta) :
  exists c s, timedelta_str t = String c s /\ c <> "N"%char.
Proof.
  unfold timedelta_str.
  set (days := t / 86400000000). set (hh := _ / 60 / 60).
  destruct (decimal_first days) as (c1 & s1 & E1 & N1).
  destruct (decimal_first hh) as (c2 & s2 & E2 & N2).
  destruct (t mod 1000000 =? 0), (days =? 0); rewrite ?E1, ?E2; simpl;
    do 2 eexists; (split; [reflexivity | assumption]).
Qed.

Lemma timedelta_str_not_sentinel (t : timedelta) : timedelta_str t <> "NO TIME".
Proof.
  destruct (timedelta_str_first t) as (c & s & E & N). rewrite E.
  intros [= H _]. now apply N.
Qed.

Lemma sentinel_iff (d : DriverLapInfo) :
  lap_time_or_sentinel d = Ok "NO TIME"
  <-> driver_lap_time d = Ok None \/ driver_lap_time d = Ok (Some 0).
Proof.
  rewrite lap_time_or_sentinel_cases.
  destruct (driver_lap_time d) as [[t|]|e]; simpl.
  - destruct (t =? 0) eqn:E; simpl.
    + apply Z.eqb_eq in E; subst. split; auto.
    + apply Z.eqb_neq in E. split.
      * intros [= H]. now apply timedelta_str_not_sentinel in H.
      * intros [H|H]; [discriminate | congruence].
  - split; auto.
  - split; [discriminate | intros [H|H]; discriminate].
Qed.

(** C5, as the code has it.  The lap-time field is ["NO TIME"] exactly when
    the duration is undefined or is [timedelta(0)]: the field is chosen by
    the truth value of the duration, and a zero duration is false.  In the
    folder where [SVF] ends at the time of its start, the duration is
    defined (zero) and both [get_report_data] and [get_driver_info] give
    ["NO TIME"]. *)
Theorem zero_duration_reads_as_no_time :
  (forall d,
      lap_time_or_sentinel d = Ok "NO TIME"
      <-> driver_lap_time d = Ok None \/ driver_lap_time d = Ok (Some 0))
  /\ exists drivers d,
       load zero_lap_folder = Ok drivers
       /\ dict_get "SVF" drivers = Some d
       /\ driver_lap_time d = Ok (Some 0)
       /\ get_report_data "asc" drivers
          = Ok [{| ReportRow.position := 1; ReportRow.name := "Sebastian Vettel";
                   ReportRow.team := "FERRARI"; ReportRow.lap_time := "NO TIME";
                   ReportRow.eliminated := false |}]
       /\ get_driver_info "SVF" drivers
          = Ok (Some {| Info.name := "Sebastian Vettel";
                        Info.team := "FERRARI";
                        Info.lap_time := "NO TIME" |}).
Proof.
  split; [exact sentinel_iff|].
  do 2 eexists. repeat split; vm_compute; reflexivity.
Qed.

(** ** Records without end time *)

(** C2, as the code has it.  A record whose code the end log does not hold
    (the end log may be missing) is built without the attribute [end_time]:
    reading its duration raises [AttributeError], and so do every ranking
    and report of a mapping that holds it and the lookup of its code. *)
Theorem start_only_record_raises (dir : Folder)
    (drivers : dict DriverLapInfo) (end_times : dict datetime) (code : string) :
  load dir = Ok drivers ->
  read_log_file (end_log dir) = Ok end_times ->
  dict_mem code drivers = true ->
  dict_get code end_times = None ->
  exists d,
    dict_get code drivers = Some d
    /\ end_time d = None
    /\ driver_lap_time d = Raise AttributeError
    /\ get_driver_info code drivers = Raise AttributeError
    /\ forall order,
         rank_drivers order drivers = Raise AttributeError
         /\ get_report_data order drivers = Raise AttributeError.
Proof.
  intros Hload Hen Hmem Hcode. unfold dict_mem in Hmem.
  destruct (dict_get code drivers) as [d|] eqn:G; [|discriminate].
  exists d.
  destruct (load_inv _ _ Hload) as (st & en & Hst & _ & _).
  destruct (load_records _ _ _ _ Hload Hst Hen) as (_ & _ & Hrec).
  rewrite Forall_forall in Hrec.
  destruct (Hrec _ (dict_get_In _ _ _ G)) as [_ Hend]. simpl in Hend.
  rewrite Hcode in Hend.
  assert (Hlap := driver_lap_time_untimed d Hend).
  assert (Hrank : forall order, rank_drivers order drivers = Raise AttributeError).
  { intros order. eapply rank_drivers_raises; [|exact Hend].
    eapply dict_get_In_values, G. }
  repeat split; trivial.
  - unfold get_driver_info. rewrite G, lap_time_or_sentinel_cases, Hlap.
    reflexivity.
  - unfold get_report_data. now rewrite Hrank.
Qed.

(** The sample folder without [end.log], at the code [SVF]. *)
Lemma start_only_record_raises_witness :
  load folder_without_end = Ok drivers_without_end
  /\ exists d,
       dict_get "SVF" drivers_without_end = Some d
       /\ driver_lap_time d = Raise AttributeError
       /\ get_driver_info "SVF" drivers_without_end = Raise AttributeError
       /\ rank_drivers "asc" drivers_without_end = Raise AttributeError
       /\ get_report_data "desc" drivers_without_end = Raise AttributeError.
Proof.
  split; [reflexivity|].
  destruct (start_only_record_raises folder_without_end drivers_without_end
              [] "SVF" eq_refl eq_refl eq_refl eq_refl)
    as (d & Hd & _ & Hlap & Hinfo & Hrank).
  exists d. repeat split; trivial; apply Hrank.
Defined.

(** ** Lookup of one code *)

(** C8, as the code has it.  [get_driver_info] returns [None] for a code
    outside the mapping and the name, team and lap-time field of a record
    that has an end time; for a record without end time it raises
    [AttributeError]. *)
Theorem get_driver_info_cases (code : string) (drivers : dict DriverLapInfo) :
  (dict_get code drivers = None -> get_driver_info code drivers = Ok None)
  /\ (forall d, dict_get code drivers = Some d -> has_end_time d = true ->
        exists lap,
          lap_time_or_sentinel d = Ok lap
          /\ get_driver_info code drivers
             = Ok (Some {| Info.name := driver_name d; Info.team := team d;
                           Info.lap_time := lap |}))
  /\ (forall d, dict_get code drivers = Some d -> end_time d = None ->
        get_driver_info code drivers = Raise AttributeError).
Proof.
  unfold get_driver_info. repeat split.
  - now intros ->.
  - intros d -> Ht. destruct (driver_lap_time_timed d Ht) as [v Hv].
    rewrite lap_time_or_sentinel_cases, Hv. simpl. eauto.
  - intros d -> Hd.
    now rewrite lap_time_or_sentinel_cases, (driver_lap_time_untimed d Hd).
Qed.

(** In the sample folder without [end.log], the lookup of the known code
    [SVF] raises; the lookup of an unknown code returns [None]. *)
Lemma get_driver_info_cases_witness :
  load folder_without_end = Ok drivers_without_end
  /\ get_driver_info "SVF" drivers_without_end = Raise AttributeError
  /\ get_driver_info "XYZ" drivers_without_end = Ok None.
Proof.
  split; [reflexivity|]. split.
  - eapply (get_driver_info_cases "SVF"); reflexivity.
  - apply (get_driver_info_cases "XYZ"). reflexivity.
Defined.

(** ** The ranking *)

Lemma StronglySorted_app_inv {T : Type} (R : T -> T -> Prop) (l1 l2 : list T) :
  StronglySorted R (l1 ++ l2) ->
  StronglySorted R l1 /\ StronglySorted R l2
  /\ forall x y, In x l1 -> In y l2 -> R x y.
Proof.
  induction l1 as [|a l1 IH]; simpl; intros H.
  - repeat split; [constructor | exact H | intros x y []].
  - apply StronglySorted_inv in H as [Hs Ha].
    destruct (IH Hs) as (H1 & H2 & H12). rewrite Forall_forall in Ha.
    repeat split; trivial.
    + constructor; [exact H1|]. rewrite Forall_forall. intros x Hx.
      apply Ha, in_or_app. now left.
    + intros x y [<-|Hx] Hy; [|now apply H12].
      apply Ha, in_or_app. now right.
Qed.

Lemma Permutation_filter {T : Type} (p : T -> bool) (l l' : list T) :
  Permutation l l' -> Permutation (filter p l) (filter p l').
Proof.
  induction 1 as [|x l l' _ IH|x y l|l l' l'' _ IH1 _ IH2]; simpl.
  - constructor.
  - destruct (p x); [now constructor | exact IH].
  - destruct (p x), (p y); try reflexivity. apply perm_swap.
  - now transitivity (filter p l').
Qed.

Lemma filter_all {T : Type} (p : T -> bool) (l : list T) :
  (forall x, In x l -> p x = true) -> filter p l = l.
Proof.
  induction l as [|x l IH]; simpl; intros H; [reflexivity|].
  rewrite (H x) by now left. f_equal. apply IH. intros y Hy. apply H.
  now right.
Qed.

Lemma filter_none {T : Type} (p : T -> bool) (l : list T) :
  (forall x, In x l -> p x = false) -> filter p l = [].
Proof.
  induction l as [|x l IH]; simpl; intros H; [reflexivity|].
  rewrite (H x) by now left. apply IH. intros y Hy. apply H. now right.
Qed.

(** What is known of the keyed list after the sort, in either direction. *)
Lemma keyed_valid (l : list (sort_key * DriverLapInfo)) :
  Forall (fun kx => rank_key (snd kx) = Ok (fst kx)) l ->
  Forall (fun kx => valid_key (fst kx)) l.
Proof.
  apply Forall_impl. intros kx H. now apply rank_key_Ok in H.
Qed.

Lemma sorted_keyed (keyed : list (sort_key * DriverLapInfo)) :
  Forall (fun kx => rank_key (snd kx) = Ok (fst kx)) keyed ->
  StronglySorted key_le (stable_sort key_lt keyed)
  /\ Permutation (stable_sort key_lt keyed) keyed
  /\ Forall (fun kx => rank_key (snd kx) = Ok (fst kx))
       (stable_sort key_lt keyed).
Proof.
  intros H. split; [|split].
  - apply (stable_sort_sorted key_lt valid_key key_lt_asym key_le_trans).
    now apply keyed_valid.
  - apply stable_sort_perm.
  - eapply Permutation_Forall; [symmetry; apply stable_sort_perm | exact H].
Qed.



Lemma rank_drivers_perm (order : string) (drivers : dict DriverLapInfo)
    (ranked : list DriverLapInfo) :
  rank_drivers order drivers = Ok ranked ->
  Permutation ranked (dict_values drivers).
Proof.
  intros H. apply rank_drivers_inv in H as (keyed & Hk & ->).
  apply keyed_spec in Hk as [<- _]. apply Permutation_map.
  destruct (String.eqb order "desc").
  - rewrite <- Permutation_rev, stable_sort_perm. symmetry.
    apply Permutation_rev.
  - apply stable_sort_perm.
Qed.



(** ** The report and its cutoff *)

Lemma enumerate_snd {T : Type} (start : Z) (l : list T) :
  map snd (enumerate start l) = l.
Proof.
  revert start; induction l as [|x l IH]; intros start; simpl;
    [reflexivity | now rewrite IH].
Qed.

Lemma enumerate_fst {T : Type} (start : Z) (l : list T) :
  map fst (enumerate start l)
  = map (fun i => start + Z.of_nat i) (seq 0 (List.length l)).
Proof.
  revert start; induction l as [|x l IH]; intros start; simpl;
    [reflexivity|].
  rewrite Z.add_0_r. f_equal. rewrite IH, <- seq_shift, map_map.
  apply map_ext. intros i. lia.
Qed.

Lemma report_rows_total (order : string) (total : Z)
    (es : list (Z * DriverLapInfo)) :
  forallb has_end_time (map snd es) = true ->
  exists rows, map_result (driver_data order total) es = Ok rows.
Proof.
  induction es as [|[i d] es IH]; simpl; intros H; [now eexists|].
  apply andb_prop in H as [Hd Hes].
  destruct (driver_lap_time_timed d Hd) as [v Hv].
  destruct (IH Hes) as [rows Hrows].
  rewrite lap_time_or_sentinel_cases, Hv. simpl. rewrite Hrows. simpl.
  now eexists.
Qed.

Lemma report_rows_flags (order : string) (total : Z)
    (es : list (Z * DriverLapInfo)) (rows : list ReportRow.t) :
  map_result (driver_data order total) es = Ok rows ->
  map ReportRow.eliminated rows
  = map (fun e => eliminated_at order total (fst e)) es
  /\ map ReportRow.position rows = map fst es.
Proof.
  revert rows; induction es as [|[i d] es IH]; simpl; intros rows H.
  - injection H as <-. now split.
  - apply bind_Ok in H as (row & Hrow & H).
    apply bind_Ok in H as (rows' & Hrows & H). injection H as <-.
    apply bind_Ok in Hrow as (lap & _ & Hrow). injection Hrow as <-.
    destruct (IH _ Hrows) as [H1 H2]. simpl. now rewrite H1, H2.
Qed.

(** The records kept by the ascending rule are the first fifteen. *)
Lemma kept_ascending (ranked : list DriverLapInfo) (start : Z)
    (rows : list ReportRow.t) :
  map ReportRow.eliminated rows
  = map (fun e => 15 <? fst e) (enumerate start ranked) ->
  map fst (filter (fun p => negb (ReportRow.eliminated (snd p))) (combine ranked rows))
  = firstn (Z.to_nat (16 - start)) ranked.
Proof.
  revert start rows; induction ranked as [|d ranked IH]; intros start rows H.
  - cbn [combine filter map]. now rewrite firstn_nil.
  - destruct rows as [|row rows]; cbn [enumerate map fst] in H;
      [discriminate|].
    injection H as Hrow Hrows. cbn [combine filter snd]. rewrite Hrow.
    destruct (15 <? start) eqn:E; cbn [negb map fst];
      rewrite (IH _ _ Hrows).
    + apply Z.ltb_lt in E.
      replace (Z.to_nat (16 - start)) with 0%nat by lia.
      replace (Z.to_nat (16 - (start + 1))) with 0%nat by lia.
      reflexivity.
    + apply Z.ltb_ge in E.
      replace (Z.to_nat (16 - start))
        with (S (Z.to_nat (16 - (start + 1)))) by lia.
      reflexivity.
Qed.

(** The records kept by the other rule are all but the first
    [total - 15]. *)
Lemma kept_from_tail (ranked : list DriverLapInfo) (start total : Z)
    (rows : list ReportRow.t) :
  map ReportRow.eliminated rows
  = map (fun e => fst e <=? total - 15) (enumerate start ranked) ->
  map fst (filter (fun p => negb (ReportRow.eliminated (snd p))) (combine ranked rows))
  = skipn (Z.to_nat (total - 15 - start + 1)) ranked.
Proof.
  revert start rows; induction ranked as [|d ranked IH]; intros start rows H.
  - cbn [combine filter map]. now rewrite skipn_nil.
  - destruct rows as [|row rows]; cbn [enumerate map fst] in H;
      [discriminate|].
    injection H as Hrow Hrows. cbn [combine filter snd]. rewrite Hrow.
    destruct (start <=? total - 15) eqn:E; cbn [negb map fst];
      rewrite (IH _ _ Hrows).
    + apply Z.leb_le in E.
      replace (Z.to_nat (total - 15 - start + 1))
        with (S (Z.to_nat (total - 15 - (start + 1) + 1))) by lia.
      reflexivity.
    + apply Z.leb_gt in E.
      replace (Z.to_nat (total - 15 - start + 1)) with 0%nat by lia.
      replace (Z.to_nat (total - 15 - (start + 1) + 1)) with 0%nat by lia.
      reflexivity.
Qed.

Lemma ranked_timed (order : string) (drivers : dict DriverLapInfo)
    (ranked : list DriverLapInfo) :
  all_timed drivers = true ->
  rank_drivers order drivers = Ok ranked ->
  forallb has_end_time ranked = true.
Proof.
  intros Ht Hr. apply rank_drivers_perm in Hr.
  unfold all_timed in Ht. rewrite forallb_forall in *.
  intros d Hd. apply Ht. eapply Permutation_in; eauto.
Qed.

Lemma get_report_data_total (order : string) (drivers : dict DriverLapInfo)
    (ranked : list DriverLapInfo) :
  all_timed drivers = true ->
  rank_drivers order drivers = Ok ranked ->
  exists rows,
    get_report_data order drivers = Ok rows
    /\ map ReportRow.position rows
       = map (fun i => 1 + Z.of_nat i) (seq 0 (List.length ranked))
    /\ map ReportRow.eliminated rows
       = map (fun i => eliminated_at order (Z.of_nat (List.length ranked))
                         (1 + Z.of_nat i))
           (seq 0 (List.length ranked)).
Proof.
  intros Ht Hr. unfold get_report_data. rewrite Hr. simpl.
  destruct (report_rows_total order (Z.of_nat (List.length ranked))
              (enumerate 1 ranked)) as [rows Hrows].
  { rewrite enumerate_snd. eapply ranked_timed; eauto. }
  exists rows. split; [exact Hrows|].
  apply report_rows_flags in Hrows as [H1 H2]. split.
  - now rewrite H2, enumerate_fst.
  - rewrite H1, <- (map_map fst), enumerate_fst, map_map. reflexivity.
Qed.

(** The advancing records, by the position rule of each order. *)
Lemma advancing_ascending (drivers : dict DriverLapInfo)
    (ranked : list DriverLapInfo) :
  all_timed drivers = true ->
  rank_drivers "asc" drivers = Ok ranked ->
  advancing "asc" drivers = Ok (firstn 15 ranked).
Proof.
  intros Ht Hr. unfold advancing. rewrite Hr. simpl.
  unfold get_report_data. rewrite Hr. simpl.
  destruct (report_rows_total "asc" (Z.of_nat (List.length ranked))
              (enumerate 1 ranked)) as [rows Hrows].
  { rewrite enumerate_snd. eapply ranked_timed; eauto. }
  rewrite Hrows. simpl. f_equal.
  apply report_rows_flags in Hrows as [H1 _].
  now rewrite (kept_ascending ranked 1 rows H1).
Qed.

Lemma advancing_from_tail (order : string) (drivers : dict DriverLapInfo)
    (ranked : list DriverLapInfo) :
  order <> "asc" ->
  all_timed drivers = true ->
  rank_drivers order drivers = Ok ranked ->
  advancing order drivers = Ok (skipn (List.length ranked - 15) ranked).
Proof.
  intros Ho Ht Hr. unfold advancing. rewrite Hr. simpl.
  unfold get_report_data. rewrite Hr. simpl.
  destruct (report_rows_total order (Z.of_nat (List.length ranked))
              (enumerate 1 ranked)) as [rows Hrows].
  { rewrite enumerate_snd. eapply ranked_timed; eauto. }
  rewrite Hrows. simpl. f_equal.
  apply report_rows_flags in Hrows as [H1 _].
  unfold eliminated_at in H1. apply String.eqb_neq in Ho. rewrite Ho in H1.
  rewrite (kept_from_tail ranked 1 _ rows H1). f_equal. lia.
Qed.

(** ** The advancing set in the two orders *)

(** Two sorted arrangements of the same keyed records have the same first
    fifteen, up to their order, unless the fifteenth and the sixteenth have
    the same key. *)
Lemma sorted_top_agree (A B : list (sort_key * DriverLapInfo)) :
  StronglySorted key_le A -> StronglySorted key_le B -> Permutation A B ->
  Forall (fun kx => valid_key (fst kx)) A ->
  (forall ka kb, nth_error A 14 = Some ka -> nth_error A 15 = Some kb ->
     fst ka <> fst kb) ->
  Permutation (firstn 15 A) (firstn 15 B).
Proof.
  intros HA HB HP HV Hcut.
  destruct (nth_error A 15) as [kb|] eqn:E15.
  2:{ apply nth_error_None in E15.
      rewrite !firstn_all2; trivial.
      now rewrite <- (Permutation_length HP). }
  destruct (nth_error A 14) as [ka|] eqn:E14.
  2:{ apply nth_error_None in E14.
      assert (H : nth_error A 15 <> None) by congruence.
      apply nth_error_Some in H. lia. }
  specialize (Hcut ka kb eq_refl eq_refl).
  destruct (nth_error_split A 14 E14) as (l1 & r & EA & Hlen).
  assert (Er : exists l2, r = kb :: l2).
  { rewrite EA in E15.
    rewrite nth_error_app2 in E15 by lia. rewrite Hlen in E15.
    simpl in E15. destruct r as [|x l2]; [discriminate|].
    injection E15 as ->. now exists l2. }
  destruct Er as [l2 ->].
  rewrite Forall_forall in HV.
  assert (Vb : valid_key (fst kb)).
  { apply HV. rewrite EA. apply in_or_app. right. right. now left. }
  assert (Va : valid_key (fst ka)).
  { apply HV. rewrite EA. apply in_or_app. right. now left. }
  set (p := fun z : sort_key * DriverLapInfo => key_lt (fst z) (fst kb)).
  pose proof HA as HA'. rewrite EA in HA'.
  apply StronglySorted_app_inv in HA' as (_ & Hr & Hcross).
  apply StronglySorted_inv in Hr as [Hr Hka].
  apply StronglySorted_inv in Hr as [_ Hkb].
  rewrite Forall_forall in Hka, Hkb.
  assert (Hab : key_lt (fst ka) (fst kb) = true).
  { destruct (key_lt (fst ka) (fst kb)) eqn:E; [reflexivity|].
    exfalso. apply Hcut. apply key_le_antisym; trivial.
    apply (Hka kb). now left. }
  assert (Hlow : forall x, In x (l1 ++ [ka]) -> p x = true).
  { intros x Hx. apply in_app_or in Hx as [Hx|[<-|[]]]; [|exact Hab].
    unfold p. destruct (key_lt (fst x) (fst kb)) eqn:E; [reflexivity|].
    assert (Hxa : key_le x ka) by (apply Hcross; [exact Hx | now left]).
    assert (Vx : valid_key (fst x)).
    { apply HV. rewrite EA. apply in_or_app. now left. }
    rewrite (key_le_trans (fst kb) (fst x) (fst ka)) in Hab; trivial. }
  assert (Hhigh : forall y, In y (kb :: l2) -> p y = false).
  { intros y [<-|Hy]; unfold p.
    - destruct (key_lt (fst kb) (fst kb)) eqn:E; [|reflexivity].
      now rewrite (key_lt_asym _ _ E) in E.
    - now apply Hkb. }
  assert (EA' : A = (l1 ++ [ka]) ++ kb :: l2)
    by (rewrite EA, <- app_assoc; reflexivity).
  assert (Hlen' : List.length (l1 ++ [ka]) = 15%nat)
    by (rewrite length_app; simpl; lia).
  assert (HfA : filter p A = l1 ++ [ka]).
  { rewrite EA', filter_app, (filter_all p _ Hlow), (filter_none p _ Hhigh).
    apply app_nil_r. }
  assert (Htop : firstn 15 A = l1 ++ [ka]).
  { rewrite EA', <- Hlen', <- (Nat.add_0_r (List.length (l1 ++ [ka]))).
    rewrite firstn_app_2. simpl. apply app_nil_r. }
  assert (HVB : forall y, In y B -> valid_key (fst y)).
  { intros y Hy. apply HV. eapply Permutation_in; [symmetry; exact HP|exact Hy]. }
  assert (HB' : B = filter p B ++ filter (fun x => negb (p x)) B).
  { apply (sorted_partition key_lt p B HB). intros x y Hx Hy Hle. unfold p.
    intros Hyb. destruct (key_lt (fst x) (fst kb)) eqn:E; [reflexivity|].
    rewrite (key_le_trans (fst kb) (fst x) (fst y)) in Hyb; auto. }
  assert (HfP : Permutation (filter p A) (filter p B))
    by now apply Permutation_filter.
  assert (HlenB : List.length (filter p B) = 15%nat).
  { rewrite <- (Permutation_length HfP), HfA. exact Hlen'. }
  rewrite Htop, <- HfA, HB'.
  rewrite <- HlenB at 1. rewrite <- (Nat.add_0_r (List.length (filter p B))).
  rewrite firstn_app_2. simpl. rewrite app_nil_r. exact HfP.
Qed.

(** C3 as amended.  When every record has an end time (a duration or the
    anomaly) and the fifteenth and sixteenth records of the ascending
    ranking, if there are that many, do not have the same duration (nor
    are both anomalies), the records that [get_report_data('asc')] marks as
    not eliminated, the first fifteen, are those that
    [get_report_data('desc')] marks so, the last fifteen, up to their
    order. *)
Theorem advancing_sets_agree_without_cutoff_tie (drivers : dict DriverLapInfo) :
  all_timed drivers = true ->
  (forall ranked a b,
      rank_drivers "asc" drivers = Ok ranked ->
      nth_error ranked 14 = Some a -> nth_error ranked 15 = Some b ->
      driver_lap_time a <> driver_lap_time b) ->
  exists asc desc,
    rank_drivers "asc" drivers = Ok asc
    /\ rank_drivers "desc" drivers = Ok desc
    /\ advancing "asc" drivers = Ok (firstn 15 asc)
    /\ advancing "desc" drivers = Ok (skipn (List.length desc - 15) desc)
    /\ Permutation (firstn 15 asc) (skipn (List.length desc - 15) desc).
Proof.
  intros Ht Hcut.
  destruct (rank_drivers_total "asc" drivers Ht) as [asc Hasc].
  destruct (rank_drivers_total "desc" drivers Ht) as [desc Hdesc].
  exists asc, desc. split; [exact Hasc|]. split; [exact Hdesc|].
  split; [now apply advancing_ascending|].
  split; [now apply advancing_from_tail|].
  specialize (Hcut asc).
  destruct (rank_drivers_inv _ _ _ Hasc) as (keyed & Hk & Ea).
  destruct (rank_drivers_inv _ _ _ Hdesc) as (keyed' & Hk' & Ed).
  rewrite Hk in Hk'. injection Hk' as <-.
  simpl String.eqb in Ea, Ed. cbv iota in Ea, Ed.
  apply keyed_spec in Hk as [_ Hk].
  assert (Hkr : Forall (fun kx => rank_key (snd kx) = Ok (fst kx)) (rev keyed)).
  { eapply Permutation_Forall; [apply Permutation_rev | exact Hk]. }
  destruct (sorted_keyed keyed Hk) as (HsA & HpA & HfA).
  destruct (sorted_keyed (rev keyed) Hkr) as (HsB & HpB & _).
  set (A := stable_sort key_lt keyed) in *.
  set (B := stable_sort key_lt (rev keyed)) in *.
  assert (HP : Permutation A B).
  { rewrite HpA, HpB. apply Permutation_rev. }
  assert (Htop : Permutation (firstn 15 A) (firstn 15 B)).
  { apply sorted_top_agree; trivial; [now apply keyed_valid|].
    intros ka kb Ea14 Ea15 Heq. rewrite Forall_forall in HfA.
    assert (Ha := HfA ka (nth_error_In _ _ Ea14)).
    assert (Hb := HfA kb (nth_error_In _ _ Ea15)).
    apply rank_key_Ok in Ha as (_ & Ha & _).
    apply rank_key_Ok in Hb as (_ & Hb & _).
    apply (Hcut (snd ka) (snd kb) Hasc).
    - rewrite Ea. now apply map_nth_error.
    - rewrite Ea. now apply map_nth_error.
    - rewrite Ha, Hb, Heq. reflexivity. }
  rewrite Ea, Ed, length_map, length_rev, firstn_map, skipn_map, skipn_rev.
  apply Permutation_map. rewrite Htop, <- Permutation_rev.
  destruct (Nat.le_gt_cases 15 (List.length B)) as [Hn|Hn].
  - replace (List.length B - (List.length B - 15))%nat with 15%nat by lia.
    reflexivity.
  - replace (List.length B - (List.length B - 15))%nat
      with (List.length B) by lia.
    rewrite firstn_all, firstn_all2 by lia. reflexivity.
Qed.

(** Fifteen laps of different durations and one anomaly: the same fifteen
    advance in both orders. *)
Lemma advancing_sets_agree_without_cutoff_tie_witness :
  load folder_one_anomaly = Ok drivers_one_anomaly
  /\ exists asc desc,
       advancing "asc" drivers_one_anomaly = Ok asc
       /\ advancing "desc" drivers_one_anomaly = Ok desc
       /\ Permutation asc desc.
Proof.
  split; [reflexivity|].
  destruct (advancing_sets_agree_without_cutoff_tie drivers_one_anomaly)
    as (asc & desc & _ & _ & Ha & Hd & HP).
  - reflexivity.
  - intros ranked a b Hr Ha Hb. vm_compute in Hr. injection Hr as <-.
    vm_compute in Ha, Hb. injection Ha as <-. injection Hb as <-.
    vm_compute. discriminate.
  - eauto.
Defined.

(** C3 as stated fails on fourteen laps and two anomalies: ascending, the
    anomaly [RGH] is fifteenth and advances; descending, the two anomalies
    lead the list, [RGH] is first and is the one eliminated. *)
Lemma advancing_sets_differ_with_two_anomalies :
  load folder_two_anomalies = Ok drivers_two_anomalies
  /\ exists asc desc,
       advancing "asc" drivers_two_anomalies = Ok asc
       /\ advancing "desc" drivers_two_anomalies = Ok desc
       /\ In "RGH" (map driver_init asc)
       /\ ~ In "RGH" (map driver_init desc).
Proof.
  split; [reflexivity|].
  do 2 eexists. split; [vm_compute; reflexivity|].
  split; [vm_compute; reflexivity|]. split.
  - simpl. tauto.
  - simpl. intros H.
    repeat (destruct H as [H|H]; [discriminate H|]). exact H.
Qed.

(** ** An order that is neither ['asc'] nor ['desc'] *)

(** C6, as the code has it.  [rank_drivers] sorts in ascending order unless
    the order is ['desc'], and [get_report_data] cuts from the head only
    when the order is ['asc']: under any other order the ranking is the
    ascending one, and the entries marked eliminated are the first
    [total - 15] of it, not those after the fifteenth.  With more than
    fifteen records the report differs from the report for ['asc']. *)
Theorem unrecognized_order_cuts_from_tail (order : string)
    (drivers : dict DriverLapInfo) :
  order <> "asc" -> order <> "desc" -> all_timed drivers = true ->
  rank_drivers order drivers = rank_drivers "asc" drivers
  /\ exists ranked rows rows_asc,
       rank_drivers "asc" drivers = Ok ranked
       /\ report (Some order) drivers = Ok rows
       /\ report (Some "asc") drivers = Ok rows_asc
       /\ map ReportRow.eliminated rows
          = map (fun i => 1 + Z.of_nat i <=? Z.of_nat (List.length ranked) - 15)
              (seq 0 (List.length ranked))
       /\ map ReportRow.eliminated rows_asc
          = map (fun i => 15 <? 1 + Z.of_nat i) (seq 0 (List.length ranked))
       /\ ((15 < List.length ranked)%nat -> rows <> rows_asc).
Proof.
  intros Hasc Hdesc Ht.
  assert (Hrank : rank_drivers order drivers = rank_drivers "asc" drivers).
  { unfold rank_drivers. apply String.eqb_neq in Hdesc. now rewrite Hdesc. }
  split; [exact Hrank|].
  destruct (rank_drivers_total "asc" drivers Ht) as [ranked Hr].
  destruct (get_report_data_total order drivers ranked Ht
              (eq_trans Hrank Hr)) as (rows & Hrows & _ & Hflags).
  destruct (get_report_data_total "asc" drivers ranked Ht Hr)
    as (rows_asc & Hrows_asc & _ & Hflags_asc).
  exists ranked, rows, rows_asc.
  unfold eliminated_at in Hflags, Hflags_asc.
  apply String.eqb_neq in Hasc. rewrite Hasc in Hflags.
  simpl String.eqb in Hflags_asc. cbv iota in Hflags_asc.
  repeat split; trivial.
  intros Hlen Heq. subst rows_asc. rewrite Hflags in Hflags_asc.
  assert (H0 : In 0%nat (seq 0 (List.length ranked))) by (apply in_seq; lia).
  apply (ext_in_map Hflags_asc) in H0.
  destruct (Z.leb_spec (1 + Z.of_nat 0) (Z.of_nat (List.length ranked) - 15));
    destruct (Z.ltb_spec 15 (1 + Z.of_nat 0)); try discriminate; lia.
Qed.

(** Sixteen laps of different durations under the order ['foo']: the
    ranking is the ascending one, and the fastest driver is the one marked
    eliminated. *)
Lemma unrecognized_order_cuts_from_tail_witness :
  load folder_sixteen = Ok drivers_sixteen
  /\ rank_drivers "foo" drivers_sixteen = rank_drivers "asc" drivers_sixteen
  /\ exists rows rows_asc,
       report (Some "foo") drivers_sixteen = Ok rows
       /\ report (Some "asc") drivers_sixteen = Ok rows_asc
       /\ map ReportRow.eliminated rows
          = [true; false; false; false; false; false; false; false;
             false; false; false; false; false; false; false; false]
       /\ map ReportRow.eliminated rows_asc
          = [false; false; false; false; false; false; false; false;
             false; false; false; false; false; false; false; true]
       /\ rows <> rows_asc.
Proof.
  split; [reflexivity|].
  destruct (unrecognized_order_cuts_from_tail "foo" drivers_sixteen)
    as (Hrank & ranked & rows & rows_asc & Hr & Hrows & Hasc & Hf & Hfa & Hne);
    try discriminate; try reflexivity.
  split; [exact Hrank|]. exists rows, rows_asc.
  assert (Hlen : List.length ranked = 16%nat).
  { vm_compute in Hr. injection Hr as <-. reflexivity. }
  rewrite Hlen in Hf, Hfa, Hne.
  repeat split; trivial. apply Hne. lia.
Defined.

(** ** The ranking as a stable sort *)

Lemma StronglySorted_app {T : Type} (R : T -> T -> Prop) (l1 l2 : list T) :
  StronglySorted R l1 -> StronglySorted R l2 ->
  (forall x y, In x l1 -> In y l2 -> R x y) ->
  StronglySorted R (l1 ++ l2).
Proof.
  intros H1 H2 H12. induction H1 as [|x l1 H1 IH Hx]; simpl; [exact H2|].
  constructor.
  - apply IH. intros a b Ha Hb. apply H12; [now right | exact Hb].
  - apply Forall_app. split; [exact Hx|]. rewrite Forall_forall.
    intros y Hy. apply H12; [now left | exact Hy].
Qed.

Lemma StronglySorted_rev {T : Type} (R : T -> T -> Prop) (l : list T) :
  StronglySorted R l -> StronglySorted (fun a b => R b a) (rev l).
Proof.
  induction 1 as [|x l Hs IH Hx]; simpl; [constructor|].
  apply StronglySorted_app; [exact IH | repeat constructor|].
  intros a b Ha [<-|[]]. rewrite Forall_forall in Hx. apply Hx.
  now apply in_rev.
Qed.

Lemma StronglySorted_map {T U : Type} (R : T -> T -> Prop) (R' : U -> U -> Prop)
    (f : T -> U) (l : list T) :
  (forall x y, In x l -> In y l -> R x y -> R' (f x) (f y)) ->
  StronglySorted R l -> StronglySorted R' (map f l).
Proof.
  intros HR Hs. induction Hs as [|x l Hs IH Hx]; simpl; constructor.
  - apply IH. intros a b Ha Hb. apply HR; now right.
  - apply Forall_map. rewrite Forall_forall in *. intros y Hy.
    apply HR; [now left | now right | now apply Hx].
Qed.

Lemma key_le_lap_le (kx ky : sort_key * DriverLapInfo) :
  rank_key (snd kx) = Ok (fst kx) -> rank_key (snd ky) = Ok (fst ky) ->
  key_le kx ky -> lap_le (snd kx) (snd ky).
Proof.
  destruct kx as [k x], ky as [k' y]. simpl. rewrite !rank_key_cases.
  unfold key_le, not_after, lap_le, key_lt. simpl.
  destruct (driver_lap_time x) as [[a|]|e], (driver_lap_time y) as [[b|]|e'];
    try discriminate; intros [= <-] [= <-]; simpl; trivial.
  - rewrite Z.ltb_ge. lia.
  - discriminate.
Qed.

(** Only records of different keys change places in an insertion. *)
Lemma insert_filter (p : sort_key -> bool) (x : sort_key * DriverLapInfo)
    (l : list (sort_key * DriverLapInfo)) :
  (forall a b, p a = true -> p b = true -> key_lt a b = false) ->
  filter (fun kx => p (fst kx)) (insert key_lt x l)
  = filter (fun kx => p (fst kx)) (x :: l).
Proof.
  intros Hp. induction l as [|y l IH]; [reflexivity|].
  cbn [insert]. destruct (key_lt (fst y) (fst x)) eqn:E; [|reflexivity].
  cbn [filter] in *. rewrite IH.
  destruct (p (fst x)) eqn:Px, (p (fst y)) eqn:Py; try reflexivity.
  now rewrite (Hp _ _ Py Px) in E.
Qed.

Lemma stable_sort_filter (p : sort_key -> bool)
    (l : list (sort_key * DriverLapInfo)) :
  (forall a b, p a = true -> p b = true -> key_lt a b = false) ->
  filter (fun kx => p (fst kx)) (stable_sort key_lt l)
  = filter (fun kx => p (fst kx)) l.
Proof.
  intros Hp. induction l as [|x l IH]; [reflexivity|].
  cbn [stable_sort]. rewrite insert_filter by exact Hp.
  cbn [filter]. now rewrite IH.
Qed.

(** The ranking is the stable sort of the records by lap time: it holds the
    records of the mapping, each once; ascending, no record stands before a
    faster one, and descending, none before a slower one, the anomaly
    counting as the slowest; and in both directions the records of one lap
    time keep the order the mapping gives them. *)
Theorem rank_drivers_is_a_stable_sort (order : string)
    (drivers : dict DriverLapInfo) (ranked : list DriverLapInfo) :
  rank_drivers order drivers = Ok ranked ->
  Permutation ranked (dict_values drivers)
  /\ (if String.eqb order "desc"
      then StronglySorted (fun a b => lap_le b a) ranked
      else StronglySorted lap_le ranked)
  /\ forall v, filter (lap_is v) ranked = filter (lap_is v) (dict_values drivers).
Proof.
  intros H. split; [eapply rank_drivers_perm, H|].
  apply rank_drivers_inv in H as (keyed & Hk & ->).
  apply keyed_spec in Hk as [<- Hk].
  assert (Hkr : Forall (fun kx => rank_key (snd kx) = Ok (fst kx)) (rev keyed)).
  { eapply Permutation_Forall; [apply Permutation_rev | exact Hk]. }
  assert (Hmap : forall l,
             Forall (fun kx => rank_key (snd kx) = Ok (fst kx)) l ->
             StronglySorted key_le l -> StronglySorted lap_le (map snd l)).
  { intros l Hl. apply StronglySorted_map. rewrite Forall_forall in Hl.
    intros x y Hx Hy. apply key_le_lap_le; auto. }
  assert (Hfilter : forall v l,
             Forall (fun kx => rank_key (snd kx) = Ok (fst kx)) l ->
             filter (lap_is v) (map snd l)
             = map snd (filter (fun kx => key_lap_is v (fst kx)) l)).
  { intros v l Hl. induction Hl as [|[k x] l Hx Hl IH]; [reflexivity|].
    cbn [map filter snd fst]. rewrite IH. simpl in Hx.
    rewrite rank_key_cases in Hx. unfold lap_is, key_lap_is.
    destruct (driver_lap_time x) as [[a|]|e]; [| |discriminate];
      injection Hx as <-; simpl; destruct v as [t|]; try reflexivity.
    now destruct (a =? t). }
  assert (Hstable : forall v l,
             filter (fun kx : sort_key * DriverLapInfo => key_lap_is v (fst kx))
               (stable_sort key_lt l)
             = filter (fun kx => key_lap_is v (fst kx)) l).
  { intros v l. apply (stable_sort_filter (key_lap_is v)).
    unfold key_lap_is, key_lt.
    intros [[|] [a|]] [[|] [b|]]; destruct v as [y|]; simpl;
      try discriminate; try reflexivity.
    rewrite !Z.eqb_eq. intros -> ->. apply Z.ltb_irrefl. }
  destruct (String.eqb order "desc").
  - destruct (sorted_keyed (rev keyed) Hkr) as (Hs & _ & Hf). split.
    + rewrite map_rev. apply StronglySorted_rev. now apply Hmap.
    + intros v. rewrite !Hfilter; trivial.
      * now rewrite filter_rev, Hstable, filter_rev, rev_involutive.
      * eapply Permutation_Forall; [apply Permutation_rev | exact Hf].
  - destruct (sorted_keyed keyed Hk) as (Hs & _ & Hf). split.
    + now apply Hmap.
    + intros v. rewrite !Hfilter; trivial. now rewrite Hstable.
Qed.

(** Three laps with a tie between [SVF] and [NHR]: both orders keep [SVF]
    before [NHR]. *)
Lemma rank_drivers_is_a_stable_sort_witness :
  load folder_tie = Ok drivers_tie
  /\ exists asc desc,
       rank_drivers "asc" drivers_tie = Ok asc
       /\ rank_drivers "desc" drivers_tie = Ok desc
       /\ map driver_init asc = ["DRR"; "SVF"; "NHR"]
       /\ map driver_init desc = ["SVF"; "NHR"; "DRR"]
       /\ StronglySorted lap_le asc
       /\ StronglySorted (fun a b => lap_le b a) desc.
Proof.
  split; [reflexivity|].
  destruct (rank_drivers_is_a_stable_sort "asc" drivers_tie _ eq_refl)
    as (_ & Ha & _).
  destruct (rank_drivers_is_a_stable_sort "desc" drivers_tie _ eq_refl)
    as (_ & Hd & _).
  do 2 eexists. repeat split; try reflexivity; [exact Ha | exact Hd].
Defined.

(** ** The ascending report *)

Lemma report_rows_entries (order : string) (total : Z)
    (es : list (Z * DriverLapInfo)) (rows : list ReportRow.t) :
  map_result (driver_data order total) es = Ok rows ->
  Forall (fun r => ReportRow.eliminated r = eliminated_at order total (ReportRow.position r))
    rows
  /\ map ReportRow.name rows = map driver_name (map snd es)
  /\ map ReportRow.team rows = map team (map snd es).
Proof.
  revert rows; induction es as [|[i d] es IH]; simpl; intros rows H.
  - injection H as <-. repeat split; constructor.
  - apply bind_Ok in H as (row & Hrow & H).
    apply bind_Ok in H as (rows' & Hrows & H). injection H as <-.
    apply bind_Ok in Hrow as (lap & _ & Hrow). injection Hrow as <-.
    destruct (IH _ Hrows) as (H1 & H2 & H3). simpl.
    rewrite H2, H3. repeat split. now constructor.
Qed.

(** In the ascending report of a mapping whose records all have an end
    time, the entries are numbered from 1 in the order of the ranking, carry
    the names and teams of the ranked records, and are marked eliminated
    exactly from position 16 on. *)
Theorem ascending_report_cuts_after_fifteen (drivers : dict DriverLapInfo) :
  all_timed drivers = true ->
  exists ranked rows,
    rank_drivers "asc" drivers = Ok ranked
    /\ get_report_data "asc" drivers = Ok rows
    /\ map ReportRow.position rows
       = map (fun i => 1 + Z.of_nat i) (seq 0 (List.length ranked))
    /\ map ReportRow.name rows = map driver_name ranked
    /\ map ReportRow.team rows = map team ranked
    /\ Forall (fun r => ReportRow.eliminated r = (15 <? ReportRow.position r)) rows.
Proof.
  intros Ht. destruct (rank_drivers_total "asc" drivers Ht) as [ranked Hr].
  destruct (get_report_data_total "asc" drivers ranked Ht Hr)
    as (rows & Hrows & Hpos & _).
  exists ranked, rows. split; [exact Hr|]. split; [exact Hrows|].
  split; [exact Hpos|].
  unfold get_report_data in Hrows. rewrite Hr in Hrows. simpl in Hrows.
  apply report_rows_entries in Hrows as (H1 & H2 & H3).
  rewrite enumerate_snd in H2, H3. repeat split; trivial.
Qed.

(** Sixteen laps: the sixteenth entry alone is marked eliminated. *)
Lemma ascending_report_cuts_after_fifteen_witness :
  exists rows,
    get_report_data "asc" drivers_sixteen = Ok rows
    /\ map ReportRow.position rows = [1; 2; 3; 4; 5; 6; 7; 8; 9; 10; 11; 12; 13; 14; 15; 16]
    /\ Forall (fun r => ReportRow.eliminated r = (15 <? ReportRow.position r)) rows.
Proof.
  destruct (ascending_report_cuts_after_fifteen drivers_sixteen eq_refl)
    as (ranked & rows & Hr & Hrows & Hpos & _ & _ & Hel).
  exists rows. split; [exact Hrows|]. split; [|exact Hel].
  vm_compute in Hr. injection Hr as <-. exact Hpos.
Defined.

(** ** The records and the start log *)

Lemma dict_set_fresh {V : Type} (k : string) (v : V) (d : dict V) :
  dict_get k d = None -> dict_set k v d = d ++ [(k, v)].
Proof.
  induction d as [|[k' v'] d IH]; simpl; [reflexivity|].
  destruct (String.eqb k k'); [discriminate|]. intros H. now rewrite IH.
Qed.

Lemma build_exact (end_times start_times : dict datetime)
    (drivers : dict DriverLapInfo) :
  NoDup (dict_keys drivers ++ dict_keys start_times) ->
  fold_left (add_driver end_times) start_times drivers
  = drivers ++ map (fun item => (fst item, built end_times item)) start_times.
Proof.
  revert drivers.
  induction start_times as [|item st IH]; intros drivers Hnd; simpl in *.
  - now rewrite app_nil_r.
  - assert (Hfresh : dict_get (fst item) drivers = None).
    { apply dict_get_None_keys. apply NoDup_remove_2 in Hnd.
      intros Hin. apply Hnd, in_or_app. now left. }
    rewrite add_driver_built, (dict_set_fresh _ _ _ Hfresh), IH.
    + now rewrite <- app_assoc.
    + unfold dict_keys in *. rewrite map_app, <- app_assoc. exact Hnd.
Qed.

(** The record mapping follows the start log: one record per code of the
    start-time mapping and in its order, under that code, with the start
    time of the start log and the end time that the end-time mapping holds
    for the code, if any.  Codes that only [end.log] or
    [abbreviations.txt] hold get no record. *)
Theorem records_follow_the_start_log (dir : Folder)
    (drivers : dict DriverLapInfo) (start_times end_times : dict datetime) :
  load dir = Ok drivers ->
  read_log_file (start_log dir) = Ok start_times ->
  read_log_file (end_log dir) = Ok end_times ->
  map timing drivers
  = map (fun item => (fst item,
                      (fst item, snd item, dict_get (fst item) end_times)))
      start_times.
Proof.
  intros H Hst Hen. apply load_inv in H as (st & en & Hst' & Hen' & H).
  rewrite Hst in Hst'. rewrite Hen in Hen'.
  injection Hst' as <-. injection Hen' as <-.
  apply integrate_timing in H. rewrite H, build_exact.
  - simpl. rewrite map_map. reflexivity.
  - simpl. eapply read_log_file_NoDup, Hst.
Qed.

(** The sample folder: three records in the order of the start log. *)
Lemma records_follow_the_start_log_witness :
  map timing sample_drivers
  = [("SVF", ("SVF", 63662846578917000, Some 63662846643332000));
     ("DRR", ("DRR", 63662847252054000, Some 63662847084067000));
     ("NHR", ("NHR", 63662846569914000, Some 63662846642979000))].
Proof.
  exact (records_follow_the_start_log sample_folder sample_drivers
           _ _ eq_refl eq_refl eq_refl).
Defined.

(** ** The pattern reads a prefix of the line *)

Lemma match_classes_prefix (cs : list (ascii -> bool)) (s m rest : string) :
  match_classes cs s = Some (m, rest) ->
  s = (m ++ rest)%string
  /\ String.length m = List.length cs
  /\ forall more, match_classes cs (s ++ more)%string
                  = Some (m, (rest ++ more)%string).
Proof.
  revert s m rest; induction cs as [|p cs IH]; intros s m rest; simpl.
  - intros [= <- <-]. repeat split.
  - destruct s as [|c s]; [discriminate|].
    destruct (p c) eqn:Ep; [|discriminate].
    destruct (match_classes cs s) as [[m' rest']|] eqn:E; [|discriminate].
    intros [= <- <-]. destruct (IH _ _ _ E) as (Hs & Hlen & Hmore).
    repeat split.
    + simpl. now f_equal.
    + simpl. now f_equal.
    + intros more. simpl. now rewrite Ep, Hmore.
Qed.

(** The pattern of [read_log_file] is anchored at the start of the line
    only: a line it matches begins with the code, three characters, then
    the timestamp, twenty-three characters, and whatever follows the
    timestamp changes neither of them. *)
Theorem re_match_reads_a_prefix (s code timestamp_str : string) :
  re_match s = Some (code, timestamp_str) ->
  String.length code = 3%nat
  /\ String.length timestamp_str = 23%nat
  /\ (exists tail, s = (code ++ timestamp_str ++ tail)%string)
  /\ forall more, re_match (s ++ more)%string = Some (code, timestamp_str).
Proof.
  unfold re_match.
  destruct (match_classes code_classes s) as [[c rest]|] eqn:Ec;
    [|discriminate].
  destruct (match_classes timestamp_classes rest) as [[ts tail]|] eqn:Et;
    [|discriminate].
  intros [= <- <-].
  destruct (match_classes_prefix _ _ _ _ Ec) as (Hs & Hc & Hmore).
  destruct (match_classes_prefix _ _ _ _ Et) as (Hr & Ht & Hmore').
  repeat split; trivial.
  - exists tail. now rewrite Hs, Hr.
  - intros more. now rewrite Hmore, Hmore'.
Qed.

(** A line of [SVF] with a remark after the timestamp. *)
Lemma re_match_reads_a_prefix_witness :
  re_match "SVF2018-05-24_12:02:58.917 pit stop"
  = Some ("SVF", "2018-05-24_12:02:58.917").
Proof.
  exact (proj2 (proj2 (proj2
           (re_match_reads_a_prefix "SVF2018-05-24_12:02:58.917" _ _ eq_refl)))
           " pit stop").
Defined.

(** ** The order of the codes *)

Lemma dict_mem_keys {V : Type} (c : string) (d : dict V) :
  dict_mem c d = existsb (String.eqb c) (dict_keys d).
Proof.
  unfold dict_mem. induction d as [|[k v] d IH]; simpl; [reflexivity|].
  destruct (String.eqb c k); [reflexivity | exact IH].
Qed.

Lemma read_lines_keys (lines : list string) (data d : dict datetime) :
  for_each read_log_line lines data = Ok d ->
  dict_keys d = fold_left add_once (line_codes lines) (dict_keys data).
Proof.
  revert data; induction lines as [|l lines IH]; intros data H; simpl in *.
  - now injection H as <-.
  - rewrite read_log_line_cases in H.
    destruct (parse_line l) as [[c t]|]; simpl in H.
    + rewrite (IH _ H). simpl. f_equal.
      rewrite dict_keys_set, dict_mem_keys. reflexivity.
    + destruct (clean_log_line l); simpl in H; [now apply IH | discriminate].
Qed.

(** ** The metadata pass *)

Lemma set_name_team_twice (n t n' t' : string) (d : DriverLapInfo) :
  set_name_team n' t' (set_name_team n t d) = set_name_team n' t' d.
Proof. reflexivity. Qed.

Lemma integrate_line_parse (drivers : dict DriverLapInfo) (line : string) :
  clean_txt_line line = true ->
  exists c n t,
    parse_txt_line line = Some (c, (n, t))
    /\ integrate_line drivers line
       = Ok (match dict_get c drivers with
             | Some d => dict_set c (set_name_team n t d) drivers
             | None => drivers
             end).
Proof.
  unfold clean_txt_line, parse_txt_line, integrate_line.
  destruct (split "_" (strip line)) as [|a [|b [|c [|x l]]]]; try discriminate.
  intros _. exists a, b, c. split; [reflexivity|].
  now destruct (dict_get a drivers).
Qed.

Lemma integrate_lines_spec (lines : list string) (drivers : dict DriverLapInfo) :
  forallb clean_txt_line lines = true ->
  exists d',
    for_each integrate_line lines drivers = Ok d'
    /\ dict_keys d' = dict_keys drivers
    /\ forall code,
         dict_get code d'
         = option_map (named (last_meta code lines)) (dict_get code drivers).
Proof.
  revert drivers; induction lines as [|l lines IH]; intros drivers H;
    simpl in H.
  - exists drivers. repeat split. intros code. simpl.
    now destruct (dict_get code drivers).
  - apply andb_prop in H as [Hl H].
    destruct (integrate_line_parse drivers l Hl) as (c & n & t & Hp & Hi).
    cbn [for_each]. rewrite Hi. cbn [bind].
    set (d1 := match dict_get c drivers with
               | Some d => dict_set c (set_name_team n t d) drivers
               | None => drivers
               end).
    destruct (IH d1 H) as (d' & Hd' & Hk & Hget).
    exists d'. split; [exact Hd'|].
    assert (Hk1 : dict_keys d1 = dict_keys drivers).
    { unfold d1. destruct (dict_get c drivers) as [d|] eqn:G; [|reflexivity].
      rewrite dict_keys_set. unfold dict_mem. now rewrite G. }
    split; [now rewrite Hk|].
    intros code. rewrite Hget. cbn [last_meta]. rewrite Hp.
    assert (Hg1 : dict_get code d1
                  = if String.eqb code c
                    then option_map (set_name_team n t) (dict_get code drivers)
                    else dict_get code drivers).
    { unfold d1. destruct (String.eqb code c) eqn:E.
      - apply String.eqb_eq in E; subst code.
        destruct (dict_get c drivers) as [d|] eqn:G; simpl.
        + apply dict_get_set_same.
        + exact G.
      - apply String.eqb_neq in E.
        destruct (dict_get c drivers) as [d|]; [|reflexivity].
        now apply dict_get_set_other. }
    rewrite Hg1.
    destruct (last_meta code lines) as [[n' t']|];
      destruct (String.eqb code c); destruct (dict_get code drivers);
      reflexivity.
Qed.

(** On a metadata file whose lines all have three fields, the metadata pass
    leaves the codes of the mapping and their order as they are, gives each
    record the name and team of the last line that carries its code, leaves
    a record that no line names untouched, and makes no record for a code
    that only the file holds. *)
Theorem last_metadata_line_names_the_record (lines : list string)
    (drivers : dict DriverLapInfo) :
  forallb clean_txt_line lines = true ->
  exists d',
    integrate_driver_info (Some lines) drivers = Ok d'
    /\ dict_keys d' = dict_keys drivers
    /\ map timing d' = map timing drivers
    /\ forall code,
         dict_get code d'
         = option_map (named (last_meta code lines)) (dict_get code drivers).
Proof.
  intros H. destruct (integrate_lines_spec lines drivers H)
    as (d' & Hd' & Hk & Hget).
  exists d'. repeat split; trivial.
  now apply integrate_lines_timing in Hd'.
Qed.

(** The metadata of the noisy folder on the sample records: [SVF] gets the
    name of its second line, and [KMH] gets no record. *)
Lemma last_metadata_line_names_the_record_witness :
  exists d',
    integrate_driver_info (abbreviations folder_noisy) sample_drivers = Ok d'
    /\ dict_keys d' = ["SVF"; "DRR"; "NHR"]
    /\ option_map driver_name (dict_get "SVF" d') = Some "Sebastian Vettel"
    /\ option_map driver_name (dict_get "DRR" d') = Some "Daniel Ricciardo"
    /\ dict_get "KMH" d' = None.
Proof.
  destruct (last_metadata_line_names_the_record
              (lines_of (abbreviations folder_noisy)) sample_drivers eq_refl)
    as (d' & Hd' & Hk & _ & Hget).
  exists d'. split; [exact Hd'|]. split; [exact Hk|].
  rewrite !Hget. repeat split.
Defined.

(** ** From the three files to a record *)

Lemma read_log_file_spec (f : file) (d : dict datetime) :
  read_log_file f = Ok d ->
  NoDup (dict_keys d)
  /\ dict_keys d = first_places (line_codes (lines_of f))
  /\ forall c, dict_get c d = last_stamp c (lines_of f).
Proof.
  intros H. split; [eapply read_log_file_NoDup, H|].
  destruct f as [lines|]; simpl in *.
  - split; [apply (read_lines_keys _ _ _ H)|].
    intros c. apply read_lines_spec in H as [_ H]. rewrite H.
    now destruct (last_stamp c lines).
  - injection H as <-. now split.
Qed.

Lemma dict_get_map_values {V W : Type} (f : string * V -> W) (c : string)
    (d : dict V) :
  dict_get c (map (fun item => (fst item, f item)) d)
  = option_map (fun v => f (c, v)) (dict_get c d).
Proof.
  induction d as [|[k v] d IH]; simpl; [reflexivity|].
  destruct (String.eqb c k) eqn:E; [|exact IH].
  apply String.eqb_eq in E. now subst.
Qed.

(** The whole load step, code by code. *)
Lemma load_spec (dir : Folder) :
  readable_clean dir = true ->
  exists drivers,
    load dir = Ok drivers
    /\ NoDup (dict_keys drivers)
    /\ dict_keys drivers = first_places (line_codes (lines_of (start_log dir)))
    /\ forall code,
         dict_get code drivers
         = option_map
             (fun s =>
                named (last_meta code (lines_of (abbreviations dir)))
                  {| driver_init := code; start_time := s;
                     end_time := last_stamp code (lines_of (end_log dir));
                     driver_name := ""; team := "" |})
             (last_stamp code (lines_of (start_log dir))).
Proof.
  intros Hclean. destruct (load_total dir Hclean) as [drivers Hload].
  exists drivers. split; [exact Hload|].
  destruct (load_inv _ _ Hload) as (st & en & Hst & Hen & Hint).
  destruct (load_records _ _ _ _ Hload Hst Hen) as (Hkeys & Hnd & _).
  destruct (read_log_file_spec _ _ Hst) as (Hnst & Hkst & Hgst).
  destruct (read_log_file_spec _ _ Hen) as (_ & _ & Hgen).
  split; [exact Hnd|]. split; [now rewrite Hkeys|].
  rewrite (build_exact en st []) in Hint by exact Hnst. simpl in Hint.
  assert (Hbuilt : forall code,
             dict_get code (map (fun item => (fst item, built en item)) st)
             = option_map
                 (fun s => {| driver_init := code; start_time := s;
                              end_time := last_stamp code (lines_of (end_log dir));
                              driver_name := ""; team := "" |})
                 (last_stamp code (lines_of (start_log dir)))).
  { intros code. rewrite dict_get_map_values, Hgst. unfold built. simpl.
    now rewrite Hgen. }
  unfold readable_clean in Hclean. apply andb_prop in Hclean as [_ Ht].
  intros code. destruct (abbreviations dir) as [lines|]; simpl in *.
  - destruct (integrate_lines_spec lines
                (map (fun item => (fst item, built en item)) st) Ht)
      as (d' & Hd' & _ & Hget).
    rewrite Hd' in Hint. injection Hint as <-.
    rewrite Hget, Hbuilt.
    now destruct (last_stamp code (lines_of (start_log dir))).
  - injection Hint as <-. rewrite Hbuilt.
    now destruct (last_stamp code (lines_of (start_log dir))).
Qed.

(** When no line of a file that is read makes a loop raise, the load step
    returns a mapping that holds a record exactly for the codes with a
    well-formed line in [start.log], in the order of their first such line:
    the record of a code has the start time of its last well-formed start
    line, the end time of its last well-formed end line if there is one,
    and the name and team of its last metadata line, both empty if there is
    none. *)
Theorem loaded_record_comes_from_the_last_lines (dir : Folder) :
  readable_clean dir = true ->
  exists drivers,
    load dir = Ok drivers
    /\ dict_keys drivers = first_places (line_codes (lines_of (start_log dir)))
    /\ forall code,
         dict_get code drivers
         = option_map
             (fun s =>
                named (last_meta code (lines_of (abbreviations dir)))
                  {| driver_init := code; start_time := s;
                     end_time := last_stamp code (lines_of (end_log dir));
                     driver_name := ""; team := "" |})
             (last_stamp code (lines_of (start_log dir))).
Proof.
  intros H. destruct (load_spec dir H) as (drivers & Hl & _ & Hk & Hg).
  now exists drivers.
Qed.

(** The noisy folder: [SVF] keeps the place of its first line and the time
    of its last one, [NHR] has no name, [KMH] has no record. *)
Lemma loaded_record_comes_from_the_last_lines_witness :
  exists drivers,
    load folder_noisy = Ok drivers
    /\ dict_keys drivers = ["SVF"; "NHR"]
    /\ dict_get "SVF" drivers
       = Some {| driver_init := "SVF"; start_time := 63662846580000000;
                 end_time := Some 63662846643332000;
                 driver_name := "Sebastian Vettel"; team := "FERRARI" |}
    /\ dict_get "KMH" drivers = None.
Proof.
  destruct (loaded_record_comes_from_the_last_lines folder_noisy eq_refl)
    as (drivers & Hl & Hk & Hg).
  exists drivers. split; [exact Hl|]. split; [exact Hk|].
  rewrite !Hg. split; reflexivity.
Defined.

(** ** [get_all_drivers] *)

Lemma dict_get_of_In {V : Type} (k : string) (v : V) (d : dict V) :
  NoDup (dict_keys d) -> In (k, v) d -> dict_get k d = Some v.
Proof.
  induction d as [|[k' v'] d IH]; simpl; [tauto|].
  intros Hnd [H|H].
  - injection H as -> ->. now rewrite String.eqb_refl.
  - inversion Hnd as [|? ? Hk Hnd']; subst.
    destruct (String.eqb k k') eqn:E; [|now apply IH].
    apply String.eqb_eq in E; subst k'. exfalso. apply Hk.
    apply (in_map fst) in H. exact H.
Qed.

(** After a load step that returns, [get_all_drivers] lists one entry per
    code with a well-formed line in [start.log], in the order of the first
    such lines and no code twice, with the name and team of the last
    metadata line of the code (empty without one); it reads no lap time, so
    it returns also for records without end time. *)
Theorem get_all_drivers_lists_the_start_codes (dir : Folder) :
  readable_clean dir = true ->
  exists drivers,
    load dir = Ok drivers
    /\ NoDup (map DriverRow.code (get_all_drivers drivers))
    /\ get_all_drivers drivers
       = map (fun c =>
                let nt := match last_meta c (lines_of (abbreviations dir)) with
                          | Some nt => nt
                          | None => (EmptyString, EmptyString)
                          end in
                {| DriverRow.code := c; DriverRow.name := fst nt;
                   DriverRow.team := snd nt |})
           (first_places (line_codes (lines_of (start_log dir)))).
Proof.
  intros H. destruct (load_spec dir H) as (drivers & Hl & Hnd & Hk & Hg).
  exists drivers. split; [exact Hl|].
  assert (Hrows : get_all_drivers drivers
                  = map (fun c =>
                           let nt := match last_meta c (lines_of (abbreviations dir)) with
                                     | Some nt => nt
                                     | None => (EmptyString, EmptyString)
                                     end in
                           {| DriverRow.code := c; DriverRow.name := fst nt;
                              DriverRow.team := snd nt |})
                      (dict_keys drivers)).
  { unfold get_all_drivers, dict_values, dict_keys. rewrite !map_map.
    apply map_ext_in. intros [k v] Hin. simpl.
    pose proof (dict_get_of_In k v drivers Hnd Hin) as Hv.
    rewrite Hg in Hv.
    destruct (last_stamp k (lines_of (start_log dir))) as [s|];
      [|discriminate].
    simpl in Hv. injection Hv as <-.
    now destruct (last_meta k (lines_of (abbreviations dir))) as [[n t]|]. }
  split.
  - rewrite Hrows, map_map. simpl. now rewrite map_id.
  - now rewrite Hrows, Hk.
Qed.

(** The noisy folder, and the sample folder without [end.log], on which
    every ranking raises. *)
Lemma get_all_drivers_lists_the_start_codes_witness :
  (exists drivers,
      load folder_noisy = Ok drivers
      /\ get_all_drivers drivers
         = [{| DriverRow.code := "SVF"; DriverRow.name := "Sebastian Vettel";
               DriverRow.team := "FERRARI" |};
            {| DriverRow.code := "NHR"; DriverRow.name := "";
               DriverRow.team := "" |}])
  /\ (exists drivers,
        load folder_without_end = Ok drivers
        /\ map DriverRow.code (get_all_drivers drivers) = ["SVF"; "DRR"; "NHR"]
        /\ rank_drivers "asc" drivers = Raise AttributeError).
Proof.
  split.
  - destruct (get_all_drivers_lists_the_start_codes folder_noisy eq_refl)
      as (drivers & Hl & _ & Hrows).
    exists drivers. split; [exact Hl|]. rewrite Hrows. reflexivity.
  - destruct (get_all_drivers_lists_the_start_codes folder_without_end eq_refl)
      as (drivers & Hl & _ & Hrows).
    exists drivers. split; [exact Hl|]. split.
    + rewrite Hrows. reflexivity.
    + assert (E : load folder_without_end = Ok drivers_without_end)
        by reflexivity.
      rewrite E in Hl. injection Hl as <-. reflexivity.
Defined.

(** ** The page of one driver *)

Lemma lap_field_not_placeholder (d : DriverLapInfo) (lap : string) :
  lap_time_or_sentinel d = Ok lap -> lap <> "N/A"%string.
Proof.
  rewrite lap_time_or_sentinel_cases.
  destruct (driver_lap_time d) as [[t|]|e]; simpl; [| |discriminate].
  - destruct (t =? 0); simpl; intros [= <-]; [discriminate|].
    destruct (timedelta_str_first t) as (c & s & E & N). rewrite E.
    intros [= H _]. now apply N.
  - intros [= <-]. discriminate.
Qed.

(** After a load step that returns, the route of one driver hands the
    placeholder (Not Found, N/A, N/A) to the template exactly for the codes
    without a well-formed line in [start.log]: no record, whatever its name
    and team, is shown as the placeholder, since its lap-time field is never
    "N/A". *)
Theorem placeholder_page_only_for_unknown_codes (dir : Folder) :
  readable_clean dir = true ->
  exists drivers,
    load dir = Ok drivers
    /\ forall driver_id,
         App.driver_info driver_id drivers = Ok (App.not_found, driver_id)
         <-> last_stamp driver_id (lines_of (start_log dir)) = None.
Proof.
  intros H. destruct (load_spec dir H) as (drivers & Hl & _ & _ & Hg).
  exists drivers. split; [exact Hl|]. intros driver_id.
  unfold App.driver_info, get_driver_info. rewrite Hg.
  destruct (last_stamp driver_id (lines_of (start_log dir))) as [s|]; simpl.
  - split; [|discriminate]. intros Hpage. exfalso.
    match type of Hpage with
    | context [lap_time_or_sentinel ?d] =>
        destruct (lap_time_or_sentinel d) as [lap|e] eqn:E
    end; simpl in Hpage; [|discriminate].
    apply lap_field_not_placeholder in E. apply E.
    injection Hpage as _ _ Hlap. exact Hlap.
  - split; reflexivity.
Qed.

(** The sample folder: [XYZ] gets the placeholder, [SVF] does not. *)
Lemma placeholder_page_only_for_unknown_codes_witness :
  exists drivers,
    load sample_folder = Ok drivers
    /\ App.driver_info "XYZ" drivers = Ok (App.not_found, "XYZ"%string)
    /\ App.driver_info "SVF" drivers <> Ok (App.not_found, "SVF"%string).
Proof.
  destruct (placeholder_page_only_for_unknown_codes sample_folder eq_refl)
    as (drivers & Hl & Hpage).
  exists drivers. split; [exact Hl|]. split.
  - apply Hpage. reflexivity.
  - intros H. apply Hpage in H. discriminate H.
Defined.

(** ** Lookup by name *)

(** [driver_info] answers for the first record, in the order of the
    mapping, whose name is the one asked for, and reads no other lap time:
    the answer is the name and the team in their columns and the lap time
    as [str] gives it, "None" for an anomaly; the call raises only when
    that first record has no end time; and when no record has the name the
    answer is the "not found" sentence, also in a mapping that holds
    records without end time. *)
Theorem driver_info_answers_for_the_first_match (name : string)
    (drivers : dict DriverLapInfo) :
  ((forall d, In d (dict_values drivers) -> driver_name d <> name) ->
   driver_info name drivers = Ok ("Driver " ++ name ++ " not found.")%string)
  /\ (forall before d after,
        dict_values drivers = before ++ d :: after ->
        (forall x, In x before -> driver_name x <> name) ->
        driver_name d = name ->
        driver_info name drivers
        = match driver_lap_time d with
          | Ok time_str =>
              Ok (ljust 20 name ++ " | " ++ ljust 30 (team d) ++ " | "
                  ++ py_str time_str)%string
          | Raise e => Raise e
          end).
Proof.
  unfold driver_info. split.
  - induction (dict_values drivers) as [|x l IH]; intros H; [reflexivity|].
    simpl. destruct (String.eqb (driver_name x) name) eqn:E.
    + apply String.eqb_eq in E. exfalso. apply (H x); [now left | exact E].
    + apply IH. intros d Hd. apply H. now right.
  - intros before d after -> Hbefore Hd.
    induction before as [|x before IH]; simpl.
    + apply String.eqb_eq in Hd as Hd'. rewrite Hd'. rewrite Hd.
      now destruct (driver_lap_time d).
    + destruct (String.eqb (driver_name x) name) eqn:E.
      * apply String.eqb_eq in E. exfalso.
        apply (Hbefore x); [now left | exact E].
      * apply IH. intros y Hy. apply Hbefore. now right.
Qed.

(** The sample records: the anomaly [DRR] answers with "None"; and in the
    sample folder without [end.log] an unknown name is "not found" while a
    known one raises. *)
Lemma driver_info_answers_for_the_first_match_witness :
  driver_info "Daniel Ricciardo" sample_drivers
  = Ok "Daniel Ricciardo     | RED BULL RACING TAG HEUER      | None"%string
  /\ driver_info "Nobody" drivers_without_end
     = Ok "Driver Nobody not found."%string
  /\ driver_info "Daniel Ricciardo" drivers_without_end = Raise AttributeError.
Proof.
  split; [|split].
  - destruct (driver_info_answers_for_the_first_match
                "Daniel Ricciardo" sample_drivers) as [_ H].
    rewrite (H [snd (nth 0 sample_drivers ("", new_DriverLapInfo "" 0))]
               (snd (nth 1 sample_drivers ("", new_DriverLapInfo "" 0)))
               [snd (nth 2 sample_drivers ("", new_DriverLapInfo "" 0))]
               eq_refl).
    + reflexivity.
    + intros x [<-|[]]. discriminate.
    + reflexivity.
  - apply (driver_info_answers_for_the_first_match "Nobody").
    intros d [<-|[<-|[<-|[]]]]; discriminate.
  - destruct (driver_info_answers_for_the_first_match
                "Daniel Ricciardo" drivers_without_end) as [_ H].
    rewrite (H [snd (nth 0 drivers_without_end ("", new_DriverLapInfo "" 0))]
               (snd (nth 1 drivers_without_end ("", new_DriverLapInfo "" 0)))
               [snd (nth 2 drivers_without_end ("", new_DriverLapInfo "" 0))]
               eq_refl).
    + reflexivity.
    + intros x [<-|[]]. discriminate.
    + reflexivity.
Defined.

(** ** The two orders of the ranking *)

(** Two sorted arrangements of keyed records with pairwise different keys
    are the same list. *)
Lemma sorted_unique (A B : list (sort_key * DriverLapInfo)) :
  StronglySorted key_le A -> StronglySorted key_le B -> Permutation A B ->
  Forall (fun kx => valid_key (fst kx)) A ->
  (forall x y, In x A -> In y A -> fst x = fst y -> x = y) ->
  A = B.
Proof.
  intros HA; revert B; induction HA as [|a A HA IH Ha];
    intros B HB HP HV Hinj.
  - now apply Permutation_nil in HP.
  - destruct B as [|b B].
    { symmetry in HP. now apply Permutation_nil in HP. }
    apply StronglySorted_inv in HB as [HB Hb].
    rewrite Forall_forall in Ha, Hb, HV.
    assert (Hab : a = b).
    { assert (Ha_in : In a (b :: B))
        by (eapply Permutation_in; [exact HP | now left]).
      assert (Hb_in : In b (a :: A))
        by (eapply Permutation_in; [symmetry; exact HP | now left]).
      destruct Ha_in as [->|Ha_in]; [reflexivity|].
      destruct Hb_in as [->|Hb_in]; [reflexivity|].
      apply Hinj; [now left | now right|].
      apply key_le_antisym.
      - apply HV. now left.
      - apply HV. now right.
      - apply (Hb a Ha_in).
      - apply (Ha b Hb_in). }
    subst b. f_equal. apply IH; trivial.
    + eapply Permutation_cons_inv, HP.
    + rewrite Forall_forall. intros x Hx. apply HV. now right.
    + intros x y Hx Hy. apply Hinj; now right.
Qed.

Lemma NoDup_map_injective {T U : Type} (f : T -> U) (l : list T) :
  NoDup (map f l) -> forall x y, In x l -> In y l -> f x = f y -> x = y.
Proof.
  induction l as [|a l IH]; simpl; [tauto|].
  intros Hnd x y Hx Hy Hf. inversion Hnd as [|? ? Hna Hnd']; subst.
  destruct Hx as [<-|Hx], Hy as [<-|Hy]; trivial.
  - exfalso. apply Hna. rewrite Hf. now apply in_map.
  - exfalso. apply Hna. rewrite <- Hf. now apply in_map.
  - now apply IH.
Qed.

(** When the records all have an end time and no two of them have the same
    lap time (so at most one is an anomaly), the descending ranking is the
    ascending ranking read backwards. *)
Theorem descending_is_ascending_reversed (drivers : dict DriverLapInfo) :
  all_timed drivers = true ->
  NoDup (map driver_lap_time (dict_values drivers)) ->
  exists asc,
    rank_drivers "asc" drivers = Ok asc
    /\ rank_drivers "desc" drivers = Ok (rev asc).
Proof.
  intros Ht Hnd.
  destruct (rank_drivers_total "asc" drivers Ht) as [asc Hasc].
  destruct (rank_drivers_total "desc" drivers Ht) as [desc Hdesc].
  exists asc. split; [exact Hasc|]. rewrite Hdesc. f_equal.
  destruct (rank_drivers_inv _ _ _ Hasc) as (keyed & Hk & Ea).
  destruct (rank_drivers_inv _ _ _ Hdesc) as (keyed' & Hk' & Ed).
  rewrite Hk in Hk'. injection Hk' as <-.
  simpl String.eqb in Ea, Ed. cbv iota in Ea, Ed.
  apply keyed_spec in Hk as [Hsnd Hk].
  assert (Hkr : Forall (fun kx => rank_key (snd kx) = Ok (fst kx)) (rev keyed)).
  { eapply Permutation_Forall; [apply Permutation_rev | exact Hk]. }
  destruct (sorted_keyed keyed Hk) as (HsA & HpA & HfA).
  destruct (sorted_keyed (rev keyed) Hkr) as (HsB & HpB & _).
  assert (HAB : stable_sort key_lt keyed = stable_sort key_lt (rev keyed)).
  { apply sorted_unique; trivial.
    - rewrite HpA, HpB. apply Permutation_rev.
    - now apply keyed_valid.
    - intros x y Hx Hy Hxy.
      assert (Hx' : In x keyed) by (eapply Permutation_in; eauto).
      assert (Hy' : In y keyed) by (eapply Permutation_in; eauto).
      rewrite Forall_forall in Hk.
      pose proof (Hk x Hx') as Kx. pose proof (Hk y Hy') as Ky.
      apply rank_key_Ok in Kx as (_ & Kx & _).
      apply rank_key_Ok in Ky as (_ & Ky & _).
      destruct x as [kx x], y as [ky y]. simpl in *. subst ky. f_equal.
      rewrite <- Hsnd in Hnd.
      rewrite map_map in Hnd.
      assert (E := NoDup_map_injective _ _ Hnd (kx, x) (kx, y) Hx' Hy').
      simpl in E. rewrite Kx, Ky in E. specialize (E eq_refl).
      now injection E. }
  rewrite Ea, Ed, <- HAB, map_rev. reflexivity.
Qed.

(** The sample folder, two laps and one anomaly. *)
Lemma descending_is_ascending_reversed_witness :
  exists asc,
    rank_drivers "asc" sample_drivers = Ok asc
    /\ rank_drivers "desc" sample_drivers = Ok (rev asc)
    /\ map driver_init asc = ["SVF"; "NHR"; "DRR"].
Proof.
  destruct (descending_is_ascending_reversed sample_drivers eq_refl)
    as (asc & Ha & Hd).
  - vm_compute. repeat constructor; simpl; intros H;
      repeat (destruct H as [H|H]; [discriminate H|]); exact H.
  - exists asc. split; [exact Ha|]. split; [exact Hd|].
    vm_compute in Ha. injection Ha as <-. reflexivity.
Defined.

(** ** How many advance *)

(** When the records all have an end time, the entries that
    [get_report_data] does not mark eliminated are fifteen, or all of them
    when there are fewer, whatever the order asked for. *)
Theorem fifteen_advance_in_every_order (order : string)
    (drivers : dict DriverLapInfo) :
  all_timed drivers = true ->
  exists kept,
    advancing order drivers = Ok kept
    /\ List.length kept = Nat.min 15 (List.length drivers).
Proof.
  intros Ht. destruct (rank_drivers_total order drivers Ht) as [ranked Hr].
  assert (Hlen : List.length ranked = List.length drivers).
  { rewrite (Permutation_length (rank_drivers_perm _ _ _ Hr)).
    unfold dict_values. apply length_map. }
  destruct (String.eqb order "asc") eqn:E.
  - apply String.eqb_eq in E; subst order.
    exists (firstn 15 ranked).
    split; [apply advancing_ascending; assumption|].
    rewrite length_firstn. now rewrite Hlen.
  - apply String.eqb_neq in E.
    exists (skipn (List.length ranked - 15) ranked).
    split; [apply advancing_from_tail; assumption|].
    rewrite length_skipn, Hlen. lia.
Qed.

(** Sixteen laps: fifteen advance under ['asc'], ['desc'] and ['foo']. *)
Lemma fifteen_advance_in_every_order_witness :
  (exists kept, advancing "asc" drivers_sixteen = Ok kept
                /\ List.length kept = 15%nat)
  /\ (exists kept, advancing "desc" drivers_sixteen = Ok kept
                   /\ List.length kept = 15%nat)
  /\ (exists kept, advancing "foo" drivers_sixteen = Ok kept
                   /\ List.length kept = 15%nat).
Proof.
  repeat split.
  - exact (fifteen_advance_in_every_order "asc" drivers_sixteen eq_refl).
  - exact (fifteen_advance_in_every_order "desc" drivers_sixteen eq_refl).
  - exact (fifteen_advance_in_every_order "foo" drivers_sixteen eq_refl).
Defined.

(** ** [print_report] *)

Lemma forallb_false {T : Type} (f : T -> bool) (l : list T) :
  forallb f l = false -> exists x, In x l /\ f x = false.
Proof.
  induction l as [|a l IH]; simpl; [discriminate|].
  destruct (f a) eqn:E; simpl.
  - intros H. destruct (IH H) as (x & Hx & Hf). exists x. split; auto.
  - intros _. exists a. split; auto.
Qed.

(** One pass of the loop on a record with an end time. *)
Lemma print_entry_timed (order : string) (total i : Z) (d : DriverLapInfo) :
  has_end_time d = true ->
  print_entry order total (i, d)
  = ((match (if String.eqb order "desc" then Some (total - 14)
             else if String.eqb order "asc" then Some 16 else None) with
      | Some p => if i =? p then [eliminated_rule] else []
      | None => []
      end)
     ++ entry_lines [(i, d)], Ok tt).
Proof.
  intros Hd. destruct (driver_lap_time_timed d Hd) as [v Hv].
  unfold print_entry, entry_lines. cbn [map fst snd]. rewrite Hv.
  assert (Hrule :
    (if String.eqb order "desc" && (total - i =? 14) then [eliminated_rule]
     else if String.eqb order "asc" && (i =? 16) then [eliminated_rule]
     else [])
    = match (if String.eqb order "desc" then Some (total - 14)
             else if String.eqb order "asc" then Some 16 else None) with
      | Some p => if i =? p then [eliminated_rule] else []
      | None => []
      end).
  { destruct (String.eqb_spec order "desc") as [->|_]; cbn [andb].
    - destruct (Z.eqb_spec (total - i) 14), (Z.eqb_spec i (total - 14));
        try reflexivity; lia.
    - destruct (String.eqb order "asc"); reflexivity. }
  rewrite Hrule. now destruct v.
Qed.

Lemma print_each_timed (order : string) (total : Z)
    (es : list (Z * DriverLapInfo)) :
  forallb has_end_time (map snd es) = true ->
  print_each (print_entry order total) es
  = (flat_map
       (fun e =>
          (match (if String.eqb order "desc" then Some (total - 14)
                  else if String.eqb order "asc" then Some 16 else None) with
           | Some p => if fst e =? p then [eliminated_rule] else []
           | None => []
           end) ++ entry_lines [e]) es,
     Ok tt).
Proof.
  induction es as [|[i d] es IH]; intros H; [reflexivity|].
  cbn [map snd forallb] in H. apply andb_prop in H as [Hd Hes].
  cbn [print_each flat_map]. rewrite (print_entry_timed _ _ _ _ Hd).
  rewrite (IH Hes). reflexivity.
Qed.

(** A rule put before the entry of position [p] cuts the printed entries at
    the index of that position. *)
Lemma rule_before_position (f : Z * DriverLapInfo -> string) (p : Z)
    (l : list DriverLapInfo) (start : Z) :
  flat_map (fun e => (if fst e =? p then [eliminated_rule] else []) ++ [f e])
    (enumerate start l)
  = if (start <=? p) && (p <? start + Z.of_nat (List.length l))
    then firstn (Z.to_nat (p - start)) (map f (enumerate start l))
         ++ eliminated_rule
            :: skipn (Z.to_nat (p - start)) (map f (enumerate start l))
    else map f (enumerate start l).
Proof.
  revert start; induction l as [|x l IH]; intros start.
  - cbn [enumerate flat_map map List.length]. rewrite Z.add_0_r.
    destruct (Z.leb_spec start p), (Z.ltb_spec p start); try reflexivity; lia.
  - cbn [enumerate flat_map map fst]. rewrite IH.
    replace (start + Z.of_nat (List.length (x :: l)))
      with (start + 1 + Z.of_nat (List.length l))
      by (cbn [List.length]; lia).
    destruct (Z.eqb_spec start p) as [->|Hne].
    + destruct (Z.leb_spec (p + 1) p); [lia|].
      destruct (Z.leb_spec p p); [|lia].
      destruct (Z.ltb_spec p (p + 1 + Z.of_nat (List.length l))); [|lia].
      cbn [andb]. rewrite Z.sub_diag. reflexivity.
    + destruct (Z.leb_spec (start + 1) p), (Z.leb_spec start p); try lia;
        cbn [andb app]; [|reflexivity].
      destruct (Z.ltb_spec p (start + 1 + Z.of_nat (List.length l)));
        [|reflexivity].
      replace (Z.to_nat (p - start)) with (S (Z.to_nat (p - (start + 1))))
        by lia.
      reflexivity.
Qed.

Lemma flat_map_singletons {T U : Type} (f : T -> U) (l : list T) :
  flat_map (fun e => [] ++ [f e]) l = map f l.
Proof.
  induction l as [|x l IH]; simpl; [reflexivity|]. now f_equal.
Qed.

(** [print_report] either prints nothing and raises, when a record of the
    mapping has no end time (the ranking is computed before the title is
    printed), or prints the title and then one line per record in ranking
    order, numbered from 1, the last column being the lap time or, for an
    anomaly only, the "no time" sentence.  The rule [ELIMINATED] is
    printed once: under ['asc'] before the sixteenth entry when there are
    sixteen or more, under ['desc'] before the fifteenth entry from the
    end when there are fifteen or more, and under no other order. *)
Theorem print_report_prints_the_ranking (order : string)
    (drivers : dict DriverLapInfo) :
  (all_timed drivers = true ->
   exists ranked,
     rank_drivers order drivers = Ok ranked
     /\ print_report order drivers
        = (report_title
             :: with_rule (rule_index order (List.length ranked))
                  (entry_lines (enumerate 1 ranked)),
           Ok tt))
  /\ (all_timed drivers = false ->
      print_report order drivers = ([], Raise AttributeError)).
Proof.
  split.
  - intros Ht. destruct (rank_drivers_total order drivers Ht) as [ranked Hr].
    exists ranked. split; [exact Hr|].
    unfold print_report. rewrite Hr.
    rewrite print_each_timed
      by (rewrite enumerate_snd; eapply ranked_timed; eauto).
    f_equal. f_equal. unfold rule_index, with_rule.
    set (n := List.length ranked).
    destruct (String.eqb order "desc").
    + rewrite (rule_before_position
                 (fun e => report_line (fst e) (snd e)
                             match driver_lap_time (snd e) with
                             | Ok (Some t) => timedelta_str t
                             | _ => no_time_text
                             end)).
      fold n. fold (entry_lines (enumerate 1 ranked)).
      destruct (Nat.leb_spec 15 n).
      * destruct (Z.leb_spec 1 (Z.of_nat n - 14)); [|lia].
        destruct (Z.ltb_spec (Z.of_nat n - 14) (1 + Z.of_nat n)); [|lia].
        cbn [andb].
        replace (Z.to_nat (Z.of_nat n - 14 - 1)) with (n - 15)%nat by lia.
        reflexivity.
      * destruct (Z.leb_spec 1 (Z.of_nat n - 14)); [lia|]. reflexivity.
    + destruct (String.eqb order "asc").
      * rewrite (rule_before_position
                   (fun e => report_line (fst e) (snd e)
                               match driver_lap_time (snd e) with
                               | Ok (Some t) => timedelta_str t
                               | _ => no_time_text
                               end)).
        fold n. fold (entry_lines (enumerate 1 ranked)).
        destruct (Nat.leb_spec 16 n).
        -- destruct (Z.ltb_spec 16 (1 + Z.of_nat n)); [|lia]. reflexivity.
        -- destruct (Z.ltb_spec 16 (1 + Z.of_nat n)); [lia|]. reflexivity.
      * apply (flat_map_singletons
                 (fun e => report_line (fst e) (snd e)
                             match driver_lap_time (snd e) with
                             | Ok (Some t) => timedelta_str t
                             | _ => no_time_text
                             end)).
  - intros Ht. apply forallb_false in Ht as (d & Hd & Hend).
    unfold print_report. rewrite (rank_drivers_raises order drivers d Hd).
    + reflexivity.
    + unfold has_end_time in Hend. now destruct (end_time d).
Qed.

(** The sample folder under ['asc'], and fifteen laps with one anomaly
    under ['desc'], where the rule follows the first entry. *)
Lemma print_report_prints_the_ranking_witness :
  print_report "asc" sample_drivers
  = ([report_title;
      "1. Sebastian Vettel     | FERRARI                        | 0:01:04.415000";
      "2. Nico Hulkenberg      | RENAULT                        | 0:01:13.065000";
      "3. Daniel Ricciardo     | RED BULL RACING TAG HEUER      | NO TIME COULD BE DETERMINED BASED ON INPUT FILES"]%string,
     Ok tt)
  /\ nth_error (fst (print_report "desc" drivers_one_anomaly)) 2
     = Some eliminated_rule
  /\ print_report "desc" drivers_without_end = ([], Raise AttributeError).
Proof.
  split; [|split].
  - destruct (print_report_prints_the_ranking "asc" sample_drivers) as [H _].
    destruct (H eq_refl) as (ranked & Hr & Hp). rewrite Hp.
    vm_compute in Hr. injection Hr as <-. reflexivity.
  - destruct (print_report_prints_the_ranking "desc" drivers_one_anomaly)
      as [H _].
    destruct (H eq_refl) as (ranked & Hr & Hp). rewrite Hp.
    vm_compute in Hr. injection Hr as <-. reflexivity.
  - apply (print_report_prints_the_ranking "desc" drivers_without_end).
    reflexivity.
Defined.

(** ** The rule and the eliminated flag *)

Lemma map_constant {T U : Type} (f : T -> U) (b : U) (l : list T) :
  (forall x, In x l -> f x = b) -> map f l = repeat b (List.length l).
Proof.
  induction l as [|x l IH]; simpl; intros H; [reflexivity|].
  rewrite (H x) by now left. f_equal. apply IH. intros y Hy. apply H.
  now right.
Qed.

Lemma flags_in_two_runs (g : nat -> bool) (b b' : bool) (k n : nat) :
  (k <= n)%nat ->
  (forall i, (i < k)%nat -> g i = b) ->
  (forall i, (k <= i < n)%nat -> g i = b') ->
  map g (seq 0 n) = repeat b k ++ repeat b' (n - k).
Proof.
  intros Hk Hlow Hhigh.
  replace n with (k + (n - k))%nat at 1 by lia.
  rewrite seq_app, map_app. f_equal.
  - rewrite (map_constant g b); [now rewrite length_seq|].
    intros i Hi. apply in_seq in Hi. apply Hlow. lia.
  - rewrite (map_constant g b'); [now rewrite length_seq|].
    intros i Hi. apply in_seq in Hi. apply Hhigh. lia.
Qed.

(** Under ['asc'] and ['desc'], for records that all have an end time, the
    rule that [print_report] prints stands exactly where the eliminated
    flag of [get_report_data] changes: under ['asc'] the entries before the
    rule are the ones not eliminated, under ['desc'] the ones eliminated;
    and when [print_report] prints no rule, [get_report_data] marks no
    entry eliminated. *)
Theorem rule_stands_where_the_flag_changes (order : string)
    (drivers : dict DriverLapInfo) :
  all_timed drivers = true ->
  order = "asc"%string \/ order = "desc"%string ->
  exists rows,
    get_report_data order drivers = Ok rows
    /\ List.length rows = List.length drivers
    /\ match rule_index order (List.length rows) with
       | Some k =>
           map ReportRow.eliminated rows
           = repeat (String.eqb order "desc") k
             ++ repeat (negb (String.eqb order "desc")) (List.length rows - k)
       | None => map ReportRow.eliminated rows = repeat false (List.length rows)
       end.
Proof.
  intros Ht Ho. destruct (rank_drivers_total order drivers Ht) as [ranked Hr].
  destruct (get_report_data_total order drivers ranked Ht Hr)
    as (rows & Hrows & _ & Hflags).
  exists rows. split; [exact Hrows|].
  assert (Hlen : List.length rows = List.length ranked).
  { rewrite <- (length_map ReportRow.eliminated), Hflags, length_map.
    apply length_seq. }
  assert (Hrd : List.length ranked = List.length drivers).
  { rewrite (Permutation_length (rank_drivers_perm _ _ _ Hr)).
    unfold dict_values. apply length_map. }
  split; [now rewrite Hlen|].
  rewrite Hlen, Hflags. set (n := List.length ranked).
  unfold rule_index, eliminated_at.
  destruct Ho as [-> | ->]; cbn [String.eqb Ascii.eqb Bool.eqb negb].
  - destruct (Nat.leb_spec 16 n).
    + apply flags_in_two_runs; [lia| |]; intros i Hi.
      * destruct (Z.ltb_spec 15 (1 + Z.of_nat i)); [lia | reflexivity].
      * destruct (Z.ltb_spec 15 (1 + Z.of_nat i)); [reflexivity | lia].
    + etransitivity; [apply (map_constant _ false) | now rewrite length_seq].
      intros i Hi. apply in_seq in Hi.
      destruct (Z.ltb_spec 15 (1 + Z.of_nat i)); [lia | reflexivity].
  - destruct (Nat.leb_spec 15 n).
    + apply flags_in_two_runs; [lia| |]; intros i Hi.
      * destruct (Z.leb_spec (1 + Z.of_nat i) (Z.of_nat n - 15));
          [reflexivity | lia].
      * destruct (Z.leb_spec (1 + Z.of_nat i) (Z.of_nat n - 15));
          [lia | reflexivity].
    + etransitivity; [apply (map_constant _ false) | now rewrite length_seq].
      intros i Hi. apply in_seq in Hi.
      destruct (Z.leb_spec (1 + Z.of_nat i) (Z.of_nat n - 15));
        [lia | reflexivity].
Qed.

(** Fifteen laps and one anomaly under ['desc']: the rule follows the first
    entry, the only one marked eliminated. *)
Lemma rule_stands_where_the_flag_changes_witness :
  exists rows,
    get_report_data "desc" drivers_one_anomaly = Ok rows
    /\ map ReportRow.eliminated rows = true :: repeat false 15.
Proof.
  destruct (rule_stands_where_the_flag_changes "desc" drivers_one_anomaly
              eq_refl (or_intror eq_refl)) as (rows & Hrows & Hlen & Hflags).
  exists rows. split; [exact Hrows|].
  change (List.length drivers_one_anomaly) with 16%nat in Hlen.
  rewrite Hlen in Hflags. exact Hflags.
Defined.

(** ** The report and the pages agree *)

Lemma report_rows_match (order : string) (total : Z)
    (es : list (Z * DriverLapInfo)) (rows : list ReportRow.t) :
  map_result (driver_data order total) es = Ok rows ->
  Forall2 (fun e r => ReportRow.position r = fst e
                      /\ ReportRow.name r = driver_name (snd e)
                      /\ ReportRow.team r = team (snd e)
                      /\ lap_time_or_sentinel (snd e) = Ok (ReportRow.lap_time r))
    es rows.
Proof.
  revert rows; induction es as [|[i d] es IH]; simpl; intros rows H.
  - injection H as <-. constructor.
  - apply bind_Ok in H as (row & Hrow & H).
    apply bind_Ok in H as (rows' & Hrows & H). injection H as <-.
    apply bind_Ok in Hrow as (lap & Hlap & Hrow). injection Hrow as <-.
    constructor; [simpl; auto | now apply IH].
Qed.

Lemma Forall2_enumerate {T U : Type} (R : Z * T -> U -> Prop) (start : Z)
    (l : list T) (rows : list U) :
  Forall2 R (enumerate start l) rows ->
  Forall2 (fun x r => exists i, R (i, x) r) l rows.
Proof.
  revert start rows; induction l as [|x l IH]; intros start rows H;
    inversion H; subst; constructor; eauto.
Qed.

(** Whenever [get_report_data] returns, its entries stand one for one, in
    order, for the ranked records, and each entry carries what the page of
    the driver carries: for every code under which the mapping holds the
    ranked record, [get_driver_info] returns the name, team and lap-time
    field of the entry. *)
Theorem report_entries_agree_with_the_pages (order : string)
    (drivers : dict DriverLapInfo) (rows : list ReportRow.t) :
  get_report_data order drivers = Ok rows ->
  exists ranked,
    rank_drivers order drivers = Ok ranked
    /\ Forall2
         (fun d r =>
            forall code, dict_get code drivers = Some d ->
              get_driver_info code drivers
              = Ok (Some {| Info.name := ReportRow.name r; Info.team := ReportRow.team r;
                            Info.lap_time := ReportRow.lap_time r |}))
         ranked rows.
Proof.
  unfold get_report_data. intros H.
  apply bind_Ok in H as (ranked & Hr & H). exists ranked.
  split; [exact Hr|].
  apply report_rows_match, Forall2_enumerate in H.
  eapply Forall2_impl; [|exact H].
  intros d r (i & _ & Hn & Ht & Hlap) code Hcode.
  unfold get_driver_info. rewrite Hcode. simpl in *.
  rewrite Hlap, Hn, Ht. reflexivity.
Qed.

(** The sample folder: the second entry of the ascending report is the page
    of [NHR]. *)
Lemma report_entries_agree_with_the_pages_witness :
  exists rows r,
    get_report_data "asc" sample_drivers = Ok rows
    /\ nth_error rows 1 = Some r
    /\ get_driver_info "NHR" sample_drivers
       = Ok (Some {| Info.name := ReportRow.name r; Info.team := ReportRow.team r;
                     Info.lap_time := ReportRow.lap_time r |}).
Proof.
  destruct (get_report_data "asc" sample_drivers) as [rows|e] eqn:E;
    [|discriminate E].
  destruct (report_entries_agree_with_the_pages "asc" sample_drivers rows E)
    as (ranked & Hr & Hall).
  vm_compute in E. injection E as <-.
  vm_compute in Hr. injection Hr as <-.
  eexists _, _. split; [reflexivity|]. split; [reflexivity|].
  inversion Hall as [|? ? ? ? _ Hall1]; subst.
  inversion Hall1 as [|? ? ? ? H2 _]; subst.
  apply H2. reflexivity.
Defined.

(** ** From the logs to the lap time shown *)

(** After a load step that returns, the page of a code whose last
    well-formed start line is earlier than its last well-formed end line
    shows the difference of the two as [str] of a [timedelta], with the
    name and team of its last metadata line; when the end is earlier than
    the start, or the same instant, the page shows "NO TIME"; and when the
    code has no well-formed end line the route raises. *)
Theorem page_shows_end_minus_start (dir : Folder) :
  readable_clean dir = true ->
  exists drivers,
    load dir = Ok drivers
    /\ forall code s,
         last_stamp code (lines_of (start_log dir)) = Some s ->
         let nt := match last_meta code (lines_of (abbreviations dir)) with
                   | Some nt => nt
                   | None => (EmptyString, EmptyString)
                   end in
         match last_stamp code (lines_of (end_log dir)) with
         | Some e =>
             App.driver_info code drivers
             = Ok ({| Info.name := fst nt; Info.team := snd nt;
                      Info.lap_time := if s <? e then timedelta_str (e - s)
                                       else "NO TIME"%string |}, code)
         | None => App.driver_info code drivers = Raise AttributeError
         end.
Proof.
  intros H. destruct (load_spec dir H) as (drivers & Hl & _ & _ & Hg).
  exists drivers. split; [exact Hl|]. intros code s Hs nt.
  unfold App.driver_info, get_driver_info. rewrite Hg, Hs.
  cbn [option_map].
  set (d := named (last_meta code (lines_of (abbreviations dir)))
              {| driver_init := code; start_time := s;
                 end_time := last_stamp code (lines_of (end_log dir));
                 driver_name := ""; team := "" |}).
  assert (Hd : driver_name d = fst nt /\ team d = snd nt
               /\ driver_lap_time d
                  = match last_stamp code (lines_of (end_log dir)) with
                    | Some e => if e <? s then Ok None else Ok (Some (e - s))
                    | None => Raise AttributeError
                    end).
  { subst d nt.
    destruct (last_meta code (lines_of (abbreviations dir))) as [[n t]|];
      destruct (last_stamp code (lines_of (end_log dir))) as [e|];
      repeat split. }
  destruct Hd as (Hn & Ht & Hlap).
  rewrite lap_time_or_sentinel_cases, Hlap, Hn, Ht.
  destruct (last_stamp code (lines_of (end_log dir))) as [e|];
    [|reflexivity].
  destruct (Z.ltb_spec e s), (Z.ltb_spec s e); try lia; try reflexivity.
  - cbn [bind truthy]. destruct (Z.eqb_spec (e - s) 0); [lia | reflexivity].
  - cbn [bind truthy]. destruct (Z.eqb_spec (e - s) 0); [reflexivity | lia].
Qed.

(** The sample folder: [SVF] shows 1:04.415, the anomaly [DRR] shows
    "NO TIME". *)
Lemma page_shows_end_minus_start_witness :
  exists drivers,
    load sample_folder = Ok drivers
    /\ App.driver_info "SVF" drivers
       = Ok ({| Info.name := "Sebastian Vettel"; Info.team := "FERRARI";
                Info.lap_time := "0:01:04.415000" |}, "SVF"%string)
    /\ App.driver_info "DRR" drivers
       = Ok ({| Info.name := "Daniel Ricciardo";
                Info.team := "RED BULL RACING TAG HEUER";
                Info.lap_time := "NO TIME" |}, "DRR"%string).
Proof.
  destruct (page_shows_end_minus_start sample_folder eq_refl)
    as (drivers & Hl & Hpage).
  exists drivers. split; [exact Hl|]. split.
  - exact (Hpage "SVF"%string 63662846578917000 eq_refl).
  - exact (Hpage "DRR"%string 63662847252054000 eq_refl).
Defined.
